(** * Consistency validators of the food-delivery dataset

    A shallow embedding of [scripts/data_validation.py].  The validators are
    Python functions over a pandas [DataFrame]; each one first guards on the
    columns it needs ([raise ValueError]), then scans the frame and returns a
    list, a dictionary or a formatted message.

    The frame is kept as the source sees it: an ordered list of column
    labels and an ordered list of rows, each row a finite map from column
    label to cell.  The pandas operations the validators call ([isnull],
    comparison with a scalar, [isin], boolean indexing, [groupby],
    [nunique], [unique]) are given once, in module [pd], with the behaviour
    pandas has on missing cells and on the dtype of a column. *)

From Stdlib Require Import QArith Qcanon Qround Ascii String.
From Stdlib Require OrderedTypeEx.
From stdpp Require Import base numbers list strings gmap sorting.

Local Open Scope string_scope.
Local Open Scope list_scope.

(** ** Cells, exceptions, formatted text *)

(** A cell of the frame.  [NA] is the missing cell: [NaT] in a column of
    timestamps, [NaN] or the object [None] in any other column; which of
    them it is the frame records for the column.  Numbers are the finite
    values of Python's [int] and [float], which are rationals; a
    timestamp is its instant in nanoseconds. *)
Inductive value :=
  | NA
  | Str (s : string)
  | Num (q : Qc)
  | Timestamp (t : Z).

Global Instance value_eq_dec : EqDecision value.
Proof. solve_decision. Defined.

Definition int (z : Z) : value := Num (Qc_of_Z z).

(** The exceptions that leave a validator. *)
Inductive exception :=
  | ValueError (msg : string)
  | TypeError
  | AttributeError (msg : string).

Inductive result (A : Type) :=
  | Ok (a : A)
  | Raise (e : exception).
Arguments Ok {A} a.
Arguments Raise {A} e.

Global Instance result_bind : MBind result := λ A B k m,
  match m with
  | Ok a => k a
  | Raise e => Raise e
  end.

Global Instance result_fmap : FMap result := λ A B f m,
  match m with
  | Ok a => Ok (f a)
  | Raise e => Raise e
  end.

(** Python objects interpolated into an f-string, and the text an
    f-string denotes: literal pieces and objects to be formatted.  The
    characters Python's [str] and [repr] produce for an object are not
    fixed here; [render] takes them as an argument. *)
#[local] Unset Elimination Schemes.
Inductive py :=
  | PyVal (v : value)
  | PyInt (n : nat)
  | PyList (l : list py)
  | PyTuple (l : list py)
  | PyStr (t : list piece)
with piece :=
  | Lit (s : string)
  | Fmt (o : py).
#[local] Set Elimination Schemes.

Abbreviation text := (list piece).

Definition nl : string := String "010"%char EmptyString.

Definition render (format : py → string) (t : text) : string :=
  foldr (λ p acc, match p with
                  | Lit s => s +:+ acc
                  | Fmt o => format o +:+ acc
                  end) EmptyString t.

(** A Python [dict] in insertion order. *)
Abbreviation dict K V := (list (K * V)).

Section dict.
Context {K V : Type} `{EqDecision K}.

(** [d.get(k)] *)
Fixpoint dict_get (d : dict K V) (k : K) : option V :=
  match d with
  | [] => None
  | (k', v) :: d' => if decide (k' = k) then Some v else dict_get d' k
  end.

(** [d[k] = v] *)
Fixpoint dict_set (d : dict K V) (k : K) (v : V) : dict K V :=
  match d with
  | [] => [(k, v)]
  | (k', v') :: d' =>
      if decide (k' = k) then (k, v) :: d' else (k', v') :: dict_set d' k v
  end.
End dict.

(** [d.setdefault(k, []).append(x)] *)
Fixpoint dict_setdefault_append {K V : Type} `{EqDecision K}
    (d : dict K (list V)) (k : K) (x : V) : dict K (list V) :=
  match d with
  | [] => [(k, [x])]
  | (k', l) :: d' =>
      if decide (k' = k) then (k', l ++ [x]) :: d'
      else (k', l) :: dict_setdefault_append d' k x
  end.

(** ** The frame *)

Abbreviation row := (gmap string value).

(** What a frame knows of a column besides its cells, because it cannot
    be read off them: a column of missing cells is [float64] when they
    are [NaN], [datetime64] when they are [NaT] and [object] when they
    are [None]. *)
Inductive dtype :=
  | datetime64 (tz : bool)
      (* timestamps, with a time zone or without; a missing cell is NaT *)
  | object_None.
      (* Python objects; a missing cell is None *)

Global Instance dtype_eq_dec : EqDecision dtype.
Proof. solve_decision. Defined.

(** Besides its labels and rows a frame lists the columns of these two
    kinds.  A column that is not listed is a column of numbers or of
    Python objects whose missing cells are [NaN]. *)
Record DataFrame := DataFrame_of {
  columns : list string;
  rows : list row;
  dtypes : gmap string dtype
}.

(** The frame [pd.DataFrame(rows, columns=columns)] when no column is
    held as [datetime64] and no cell is [None]. *)
Abbreviation mkDataFrame labels cells := (DataFrame_of labels cells ∅).

(** The cell of a row under a label; a row that lacks the label reads as
    missing. *)
Definition cell (r : row) (c : string) : value := default NA (r !! c).

(** ** pandas *)

Module pd.

(** ['c' in data.columns] *)
Definition has_column (data : DataFrame) (c : string) : bool :=
  bool_decide (c ∈ columns data).

(** [data['c']] *)
Definition column (data : DataFrame) (c : string) : list value :=
  (λ r, cell r c) <$> rows data.

(** [data[mask]]: the rows whose mask entry is [True]. *)
Fixpoint select_rows (mask : list bool) (rs : list row) : list row :=
  match mask, rs with
  | b :: mask', r :: rs' =>
      if b then r :: select_rows mask' rs' else select_rows mask' rs'
  | _, _ => []
  end.

Definition select (mask : list bool) (data : DataFrame) : DataFrame :=
  DataFrame_of (columns data) (select_rows mask (rows data))
    (dtypes data).

(** [df.empty]: some axis has length zero. *)
Definition empty (data : DataFrame) : bool :=
  bool_decide (rows data = []) || bool_decide (columns data = []).

(** [len(df)] *)
Definition len (data : DataFrame) : nat := length (rows data).

(** [data['c'] = series] for a series of timestamps, with or without
    time zone: the cells of column [c] are replaced row by row and the
    column takes the dtype of the series; a new label is appended to the
    columns. *)
Definition set_column (data : DataFrame) (c : string) (tz : bool)
    (col : list value) : DataFrame :=
  DataFrame_of
    (if bool_decide (c ∈ columns data) then columns data
     else columns data ++ [c])
    (imap (λ i r, <[c := default NA (col !! i)]> r) (rows data))
    (<[c := datetime64 tz]> (dtypes data)).

(** [pd.api.types.is_datetime64_any_dtype(data['c'])] *)
Definition is_datetime64_any_dtype (data : DataFrame) (c : string) : bool :=
  match dtypes data !! c with
  | Some (datetime64 _) => true
  | _ => false
  end.

(** Whether the timestamps of [data['c']] carry a time zone. *)
Definition tz_aware (data : DataFrame) (c : string) : bool :=
  bool_decide (dtypes data !! c = Some (datetime64 true)).


(** Whether [data['c']] has a numeric dtype: it holds numbers and [NaN]
    only. *)
Definition is_numeric_dtype (data : DataFrame) (c : string) : bool :=
  bool_decide (dtypes data !! c = None)
  && forallb (λ v, match v with NA | Num _ => true | _ => false end)
       (column data c).

Definition isnull (v : value) : bool :=
  match v with NA => true | _ => false end.

Definition notnull (v : value) : bool := negb (isnull v).

(** [series < k] and [series > k] for a number [k].  Cell by cell, a
    missing cell compares [False] and a string or a timestamp cannot be
    compared with a number; a [datetime64] column cannot be compared
    with a number at all, not even when it is empty or holds nothing but
    [NaT]. *)
Definition lt_scalar (k : Qc) (v : value) : result bool :=
  match v with
  | NA => Ok false
  | Num q => Ok (bool_decide (q < k)%Qc)
  | Str _ | Timestamp _ => Raise TypeError
  end.

Definition gt_scalar (k : Qc) (v : value) : result bool :=
  match v with
  | NA => Ok false
  | Num q => Ok (bool_decide (k < q)%Qc)
  | Str _ | Timestamp _ => Raise TypeError
  end.

Fixpoint series_map {A B} (f : A → result B) (l : list A)
    : result (list B) :=
  match l with
  | [] => Ok []
  | x :: l' => b ← f x; bs ← series_map f l'; Ok (b :: bs)
  end.

Definition lt (data : DataFrame) (c : string) (k : Qc)
    : result (list bool) :=
  if is_datetime64_any_dtype data c then Raise TypeError
  else series_map (lt_scalar k) (column data c).

Definition gt (data : DataFrame) (c : string) (k : Qc)
    : result (list bool) :=
  if is_datetime64_any_dtype data c then Raise TypeError
  else series_map (gt_scalar k) (column data c).

(** [mask1 | mask2] *)
Definition mask_or (m1 m2 : list bool) : list bool := zip_with orb m1 m2.

(** [series.isin(expected)]: a missing cell is in no set of present
    values. *)
Definition isin (expected : list value) (v : value) : bool :=
  notnull v && bool_decide (v ∈ expected).

(** [series.unique()]: the distinct cells in order of first appearance;
    a missing cell is one of them. *)
Fixpoint unique (l : list value) : list value :=
  match l with
  | [] => []
  | x :: l' => x :: filter (λ y, y ≠ x) (unique l')
  end.

(** [series.nunique()]: the number of distinct cells, missing ones
    excluded. *)
Definition nunique (l : list value) : nat :=
  length (unique (filter (λ v, notnull v) l)).

(** The order in which [groupby] lists its keys: numbers in increasing
    order, or timestamps in increasing order, before strings in
    code-point order.  Sorting raises when it has to compare a number
    with a timestamp. *)
Definition value_leb (a b : value) : bool :=
  match a, b with
  | NA, _ => true
  | _, NA => false
  | Num p, Num q => bool_decide (p ≤ q)%Qc
  | Num _, _ => true
  | Timestamp _, Num _ => false
  | Timestamp s, Timestamp t => bool_decide (s ≤ t)%Z
  | Timestamp _, Str _ => true
  | Str s, Str t => String.leb s t
  | Str _, _ => false
  end.

Fixpoint insert_sorted (a : value) (l : list value) : list value :=
  match l with
  | [] => [a]
  | x :: l' => if value_leb a x then a :: x :: l'
               else x :: insert_sorted a l'
  end.

Definition sort (l : list value) : list value := foldr insert_sorted [] l.

Definition sortable (keys : list value) : bool :=
  negb (existsb (λ v, match v with Num _ => true | _ => false end) keys
        && existsb (λ v, match v with Timestamp _ => true | _ => false end)
             keys).

(** [data.groupby(key)[dep]]: one group per distinct key, keys sorted,
    rows whose key is missing dropped; each group lists the dependent
    cells of its rows in row order. *)
Definition group_keys (keys : list value) : list value :=
  sort (unique (filter (λ v, notnull v) keys)).

Definition group_of (k : value) (rs : list row) (key dep : string)
    : list value :=
  (λ r, cell r dep) <$> filter (λ r, cell r key = k) rs.

Definition groupby (data : DataFrame) (key dep : string)
    : result (list (value * list value)) :=
  if sortable (column data key) then
    Ok ((λ k, (k, group_of k (rows data) key dep))
          <$> group_keys (column data key))
  else Raise TypeError.

(** [.nunique()] or [.unique()] applied to every group; [.items()]
    then lists the pairs of key and aggregate. *)
Definition agg {A} (f : list value → A) (groups : list (value * list value))
    : list (value * A) :=
  (λ g, (g.1, f g.2)) <$> groups.

(** [data.groupby(key)[[dep1, dep2]].unique()]: a [DataFrameGroupBy]
    has no attribute [unique] (only a [SeriesGroupBy] has), so the
    attribute lookup raises.  Had it returned a frame, [iterrows] would
    list its index labels with their rows. *)
Definition DataFrameGroupBy_unique (data : DataFrame) (key : string)
    (deps : list string) : result (list (value * list py)) :=
  Raise (AttributeError
           "'DataFrameGroupBy' object has no attribute 'unique'").

(** [series > pd.Timestamp.now()]: the clock has no time zone and
    cannot be compared with a column that has one; otherwise a missing
    cell compares [False]. *)
Definition gt_timestamp_scalar (now : Z) (v : value) : result bool :=
  match v with
  | NA => Ok false
  | Timestamp t => Ok (bool_decide (now < t)%Z)
  | Str _ | Num _ => Raise TypeError
  end.

Definition gt_timestamp (data : DataFrame) (c : string) (now : Z)
    : result (list bool) :=
  if tz_aware data c then Raise TypeError
  else series_map (gt_timestamp_scalar now) (column data c).

(** The column [pd.to_datetime(series, errors='coerce')] returns, from
    the parser's answers: a cell it cannot read becomes missing. *)
Definition coerce (parsed : list (option Z)) : list value :=
  (λ o, from_option Timestamp NA o) <$> parsed.

End pd.

(** [d.setdefault(row['c'], []).append(x)] for a row handed out by
    [iterrows].  Python finds a key by identity or by equality.  [NaN]
    equals nothing, itself included, and a column of numbers hands out a
    new [NaN] object at every read: such a key is never found, and every
    read adds an entry.  In any other column the missing cell is one and
    the same object, found by identity. *)
Definition setdefault_append_cell {V : Type} (numeric : bool)
    (d : dict value (list V)) (k : value) (x : V) : dict value (list V) :=
  if numeric && pd.isnull k then d ++ [(k, [x])]
  else dict_setdefault_append d k x.

(** ** The validators *)

(** [validate_id]: every [id] has one [delivery_person_id], and every
    [delivery_person_id] one [id]. *)
Definition validate_id (data : DataFrame) : result (list text) :=
  let discrepancies : list text := [] in
  if negb (pd.has_column data "id")
     || negb (pd.has_column data "delivery_person_id") then
    Raise (ValueError
      "The DataFrame must contain 'id' and 'delivery_person_id' columns.")
  else
    id_groups ←
      pd.agg pd.nunique <$> pd.groupby data "id" "delivery_person_id";
    let discrepancies :=
      foldl (λ acc '(id_value, count),
               if bool_decide (1 < count) then
                 acc ++ [[Lit "ID "; Fmt (PyVal id_value);
                          Lit " has multiple delivery_person_ids."]]
               else acc)
            discrepancies id_groups in
    delivery_person_groups ←
      pd.agg pd.nunique <$> pd.groupby data "delivery_person_id" "id";
    let discrepancies :=
      foldl (λ acc '(delivery_person_id, count),
               if bool_decide (1 < count) then
                 acc ++ [[Lit "Delivery Person ID ";
                          Fmt (PyVal delivery_person_id);
                          Lit " has multiple ids."]]
               else acc)
            discrepancies delivery_person_groups in
    Ok discrepancies.

(** [validate_delivery_person_id]: the result of [validate_id] under a
    heading. *)
Definition validate_delivery_person_id (data : DataFrame)
    : result (list text) :=
  issues ← validate_id data;
  if bool_decide (issues = []) then
    Ok [[Lit "Validation passed: All IDs and delivery_person_ids are consistent."]]
  else
    Ok ([[Lit "Validation failed. Issues found:"]] ++ issues).

(** [validate_delivery_person_age]: the ages seen for each
    [delivery_person_id] that has more than one. *)
Definition validate_delivery_person_age (data : DataFrame)
    : result (dict value (list value)) :=
  let discrepancies : dict value (list value) := [] in
  if negb (pd.has_column data "delivery_person_id")
     || negb (pd.has_column data "delivery_person_age") then
    Raise (ValueError
      "The DataFrame must contain 'delivery_person_id' and 'delivery_person_age' columns.")
  else
    age_groups ←
      pd.agg pd.unique
        <$> pd.groupby data "delivery_person_id" "delivery_person_age";
    let discrepancies :=
      foldl (λ acc '(delivery_person_id, ages),
               if bool_decide (1 < length ages) then
                 dict_set acc delivery_person_id ages
               else acc)
            discrepancies age_groups in
    Ok discrepancies.

(** [validate_delivery_time]: negative delivery times and delivery times
    over 120 minutes. *)
Definition validate_delivery_time (data : DataFrame)
    : result (list text) :=
  let discrepancies : list text := [] in
  if negb (pd.has_column data "delivery_time") then
    Raise (ValueError "The DataFrame must contain 'delivery_time' column.")
  else
    neg ← pd.lt data "delivery_time" (Qc_of_Z 0);
    let negative_times := pd.select neg data in
    let discrepancies :=
      if negb (pd.empty negative_times)
      then discrepancies ++ [[Lit "Negative delivery times found."]]
      else discrepancies in
    high ← pd.gt data "delivery_time" (Qc_of_Z 120);
    let high_times := pd.select high data in
    let discrepancies :=
      if negb (pd.empty high_times)
      then discrepancies
             ++ [[Lit "Delivery times exceeding 120 minutes found."]]
      else discrepancies in
    Ok discrepancies.

(** The closing loop of the validators that return a message: one line
    per entry of [discrepancies], or the all-clear. *)
Definition result_message (header ok : string) (discrepancies : dict string text)
    : text :=
  if bool_decide (discrepancies ≠ []) then
    foldl (λ result_message '(issue, details),
             result_message ++ [Lit issue; Lit ": "] ++ details ++ [Lit nl])
          [Lit header; Lit nl] discrepancies
  else [Lit ok].

(** [validate_delivery_person_rating]: ratings outside [1, 5], and
    [delivery_person_id]s with more than one rating. *)
Definition validate_delivery_person_rating (data : DataFrame)
    : result text :=
  let discrepancies : dict value (list text) := [] in
  if negb (pd.has_column data "delivery_person_id")
     || negb (pd.has_column data "delivery_person_rating") then
    Raise (ValueError
      "The DataFrame must contain 'delivery_person_id' and 'delivery_person_rating' columns.")
  else
    low ← pd.lt data "delivery_person_rating" (Qc_of_Z 1);
    high ← pd.gt data "delivery_person_rating" (Qc_of_Z 5);
    let invalid_ratings := pd.select (pd.mask_or low high) data in
    let numeric := pd.is_numeric_dtype data "delivery_person_id" in
    let discrepancies :=
      if negb (pd.empty invalid_ratings) then
        foldl (λ acc row,
                 setdefault_append_cell numeric acc
                   (cell row "delivery_person_id")
                   [Lit "Invalid rating: ";
                    Fmt (PyVal (cell row "delivery_person_rating"))])
              discrepancies (rows invalid_ratings)
      else discrepancies in
    rating_groups ←
      pd.agg pd.unique
        <$> pd.groupby data "delivery_person_id" "delivery_person_rating";
    let discrepancies :=
      foldl (λ acc '(delivery_person_id, ratings),
               if bool_decide (1 < length ratings) then
                 dict_setdefault_append acc delivery_person_id
                   [Lit "Inconsistent ratings: ";
                    Fmt (PyList (PyVal <$> ratings))]
               else acc)
            discrepancies rating_groups in
    Ok (if bool_decide (discrepancies ≠ []) then
          foldl (λ result_message '(delivery_person_id, issues),
                   result_message
                     ++ [Lit "Delivery Person ID ";
                         Fmt (PyVal delivery_person_id);
                         Lit " has issues: ";
                         Fmt (PyList (PyStr <$> issues)); Lit nl])
                [Lit "Discrepancies found in delivery person ratings:";
                 Lit nl]
                discrepancies
        else
          [Lit "All delivery_person_ids have valid and consistent ratings."]).

(** The body the two coordinate validators share, up to the labels of
    their columns and the text of their guard. *)
Definition validate_coordinate (id latitude longitude guard : string)
    (data : DataFrame) : result (dict value (list text)) :=
  let discrepancies : dict value (list text) := [] in
  if negb (pd.has_column data id) || negb (pd.has_column data latitude)
     || negb (pd.has_column data longitude) then
    Raise (ValueError guard)
  else
    south ← pd.lt data latitude (Qc_of_Z (-90));
    north ← pd.gt data latitude (Qc_of_Z 90);
    let invalid_latitudes := pd.select (pd.mask_or south north) data in
    let numeric := pd.is_numeric_dtype data id in
    let discrepancies :=
      if negb (pd.empty invalid_latitudes) then
        foldl (λ acc row,
                 setdefault_append_cell numeric acc (cell row id)
                   [Lit "Invalid latitude: "; Fmt (PyVal (cell row latitude))])
              discrepancies (rows invalid_latitudes)
      else discrepancies in
    west ← pd.lt data longitude (Qc_of_Z (-180));
    east ← pd.gt data longitude (Qc_of_Z 180);
    let invalid_longitudes := pd.select (pd.mask_or west east) data in
    let discrepancies :=
      if negb (pd.empty invalid_longitudes) then
        foldl (λ acc row,
                 setdefault_append_cell numeric acc (cell row id)
                   [Lit "Invalid longitude: ";
                    Fmt (PyVal (cell row longitude))])
              discrepancies (rows invalid_longitudes)
      else discrepancies in
    coordinate_groups ←
      pd.DataFrameGroupBy_unique data id [latitude; longitude];
    let discrepancies :=
      foldl (λ acc '(group_id, coords),
               if bool_decide (1 < length coords) then
                 dict_setdefault_append acc group_id
                   [Lit "Inconsistent coordinates: "; Fmt (PyList coords)]
               else acc)
            discrepancies coordinate_groups in
    Ok discrepancies.

(** [validate_restaurant_coordinate] *)
Definition validate_restaurant_coordinate : DataFrame → _ :=
  validate_coordinate "restaurant_id" "restaurant_latitude"
    "restaurant_longitude"
    "The DataFrame must contain 'restaurant_id', 'restaurant_latitude', and 'restaurant_longitude' columns.".

(** [validate_delivery_location_coordinate] *)
Definition validate_delivery_location_coordinate : DataFrame → _ :=
  validate_coordinate "delivery_location_id" "delivery_location_latitude"
    "delivery_location_longitude"
    "The DataFrame must contain 'delivery_location_id', 'delivery_location_latitude', and 'delivery_location_longitude' columns.".

(** [validate_order_date] converts the column in place
    ([data['order_date'] = pd.to_datetime(...)]): besides its message it
    leaves the caller's frame changed, so it returns both.  The date
    parser of pandas and the clock read by [pd.Timestamp.now()] are
    arguments.  [to_datetime] is given the dtype of the column (its
    entry in [dtypes]) and its cells.  It raises, as pandas does on
    dates with different UTC offsets, or it answers whether the
    timestamps it read carry a time zone and, cell by cell, the instant
    read, [None] where it reads none. *)
Section order_date.
Variable to_datetime
  : option dtype → list value → result (bool * list (option Z)).
Variable now : Z.

Definition validate_order_date (data : DataFrame)
    : result text * DataFrame :=
  let discrepancies : dict string text := [] in
  if negb (pd.has_column data "order_date") then
    (Raise (ValueError "The DataFrame must contain 'order_date' column."),
     data)
  else
    let missing_dates :=
      pd.select (pd.isnull <$> pd.column data "order_date") data in
    let discrepancies :=
      if negb (pd.empty missing_dates) then
        dict_set discrepancies "missing_dates"
          [Lit "Missing order dates found: ";
           Fmt (PyInt (pd.len missing_dates))]
      else discrepancies in
    match to_datetime (dtypes data !! "order_date")
            (pd.column data "order_date") with
    | Raise e => (Raise e, data)
    | Ok (tz, parsed) =>
        let data := pd.set_column data "order_date" tz (pd.coerce parsed) in
        let invalid_dates :=
          pd.select (pd.isnull <$> pd.column data "order_date") data in
        let discrepancies :=
          if negb (pd.empty invalid_dates) then
            dict_set discrepancies "invalid_dates"
              [Lit "Invalid order dates found: ";
               Fmt (PyList
                      (PyVal <$> pd.column invalid_dates "order_date"))]
          else discrepancies in
        match pd.gt_timestamp data "order_date" now with
        | Raise e => (Raise e, data)
        | Ok future =>
            let future_dates := pd.select future data in
            let discrepancies :=
              if negb (pd.empty future_dates) then
                dict_set discrepancies "future_dates"
                  [Lit "Future order dates found: ";
                   Fmt (PyList
                          (PyVal <$> pd.column future_dates "order_date"))]
              else discrepancies in
            let discrepancies :=
              if negb (pd.is_datetime64_any_dtype data "order_date") then
                dict_set discrepancies "format_error"
                  [Lit "order_date is not in datetime64[ns] format."]
              else discrepancies in
            (Ok (result_message "Discrepancies found in order dates:"
                   "All order dates are valid and consistent."
                   discrepancies),
             data)
        end
    end.
End order_date.

(** The strings pandas reads as [NaT], whatever the format asked for. *)
Definition nat_strings : list string :=
  ["NaT"; "nat"; "NAT"; "nan"; "NaN"; "NAN"].

(** [validate_order_time] reads both times of every row with
    [pd.to_datetime(..., format='%H:%M:%S', errors='raise')]; [strptime]
    is that reader on the strings that denote a time, [None] where it
    raises [ValueError]. *)
Section order_time.
Variable strptime : string → option Z.

(** A missing cell, the empty string and the strings above are read as
    [NaT] without an error; an instant is kept; a number is formatted
    first and its digits never match the format. *)
Definition to_datetime_format (v : value) : result (option Z) :=
  match v with
  | NA => Ok None
  | Str s =>
      if bool_decide (s = EmptyString ∨ s ∈ nat_strings) then Ok None
      else
        match strptime s with
        | Some t => Ok (Some t)
        | None => Raise (ValueError "time data doesn't match format")
        end
  | Num _ => Raise (ValueError "time data doesn't match format")
  | Timestamp t => Ok (Some t)
  end.

(** The kind of object [pd.to_datetime] hands back for a cell.  Given
    [None] it returns [None], whatever the format.  A timestamp taken
    from a column with a time zone carries it; a time read from a
    string carries none, and [NaT] never does. *)
Inductive kind := py_None | naive | aware.

Global Instance kind_eq_dec : EqDecision kind.
Proof. solve_decision. Defined.

Definition kind_of (d : option dtype) (v : value) : kind :=
  match d, v with
  | Some object_None, NA => py_None
  | Some (datetime64 true), Timestamp _ => aware
  | _, _ => naive
  end.

(** [a < b] on what was read: [None] cannot be compared; [NaT] compares
    [False]; a timestamp with a time zone cannot be compared with one
    without. *)
Definition time_lt (a b : kind * option Z) : result bool :=
  match a, b with
  | (py_None, _), _ | _, (py_None, _) => Raise TypeError
  | (ka, Some s), (kb, Some t) =>
      if bool_decide (ka = kb) then Ok (bool_decide (s < t)%Z)
      else Raise TypeError
  | _, _ => Ok false
  end.

(** One turn of the loop over [data.iterrows()]; only a [ValueError] is
    caught. *)
Definition order_time_step (dtype_ordered dtype_picked : option dtype)
    (acc : result (list (value * value) * list (value * value)))
    (row : row) : result (list (value * value) * list (value * value)) :=
  '(invalid_times, inconsistent_times) ← acc;
  let attempt :=
    time_ordered ← to_datetime_format (cell row "time_ordered");
    time_order_picked ← to_datetime_format (cell row "time_order_picked");
    earlier ←
      time_lt
        (kind_of dtype_picked (cell row "time_order_picked"),
         time_order_picked)
        (kind_of dtype_ordered (cell row "time_ordered"), time_ordered);
    if earlier : bool then
      Ok (invalid_times,
          inconsistent_times
            ++ [(cell row "time_ordered", cell row "time_order_picked")])
    else Ok (invalid_times, inconsistent_times) in
  match attempt with
  | Raise (ValueError _) =>
      Ok (invalid_times
            ++ [(cell row "time_ordered", cell row "time_order_picked")],
          inconsistent_times)
  | other => other
  end.

Definition order_time_scan (data : DataFrame)
    : result (list (value * value) * list (value * value)) :=
  foldl (order_time_step (dtypes data !! "time_ordered")
           (dtypes data !! "time_order_picked"))
    (Ok ([], [])) (rows data).

Definition py_pairs (l : list (value * value)) : py :=
  PyList ((λ p, PyTuple [PyVal p.1; PyVal p.2]) <$> l).

Definition order_time_discrepancies (data : DataFrame)
    : result (dict string text) :=
  let discrepancies : dict string text := [] in
  let missing_ordered :=
    pd.select (pd.isnull <$> pd.column data "time_ordered") data in
  let missing_picked :=
    pd.select (pd.isnull <$> pd.column data "time_order_picked") data in
  let discrepancies :=
    if negb (pd.empty missing_ordered) then
      dict_set discrepancies "missing_time_ordered"
        [Lit "Missing time_ordered found: ";
         Fmt (PyInt (pd.len missing_ordered))]
    else discrepancies in
  let discrepancies :=
    if negb (pd.empty missing_picked) then
      dict_set discrepancies "missing_time_order_picked"
        [Lit "Missing time_order_picked found: ";
         Fmt (PyInt (pd.len missing_picked))]
    else discrepancies in
  '(invalid_times, inconsistent_times) ← order_time_scan data;
  let discrepancies :=
    if bool_decide (invalid_times ≠ []) then
      dict_set discrepancies "invalid_times"
        [Lit "Invalid time formats found: "; Fmt (py_pairs invalid_times)]
    else discrepancies in
  let discrepancies :=
    if bool_decide (inconsistent_times ≠ []) then
      dict_set discrepancies "inconsistent_times"
        [Lit "Inconsistent times found: ";
         Fmt (py_pairs inconsistent_times)]
    else discrepancies in
  Ok discrepancies.

Definition validate_order_time (data : DataFrame) : result text :=
  if negb (pd.has_column data "time_ordered")
     || negb (pd.has_column data "time_order_picked") then
    Raise (ValueError
      "The DataFrame must contain 'time_ordered' and 'time_order_picked' columns.")
  else
    discrepancies ← order_time_discrepancies data;
    Ok (result_message "Discrepancies found in order times:"
          "All order times are valid and consistent." discrepancies).
End order_time.

(** The seven validators of a column against a set of expected values
    share one body: a count of the missing cells, then the cells that
    are not in the set. *)
Inductive details :=
  | Found (t : text)
  | Counted (count : nat) (list : list value).

Definition domain_discrepancies (field : string) (expected : list value)
    (missing_key missing_text invalid_key : string) (data : DataFrame)
    : dict string details :=
  let discrepancies : dict string details := [] in
  let missing := pd.select (pd.isnull <$> pd.column data field) data in
  let discrepancies :=
    if negb (pd.empty missing) then
      dict_set discrepancies missing_key
        (Found [Lit missing_text; Fmt (PyInt (pd.len missing))])
    else discrepancies in
  let invalid :=
    pd.select ((λ v, negb (pd.isin expected v)) <$> pd.column data field)
      data in
  let discrepancies :=
    if negb (pd.empty invalid) then
      dict_set discrepancies invalid_key
        (Counted (pd.len invalid) (pd.unique (pd.column invalid field)))
    else discrepancies in
  discrepancies.

Definition domain_message (header ok : string)
    (discrepancies : dict string details) : text :=
  match discrepancies with
  | [] => [Lit ok]
  | _ =>
      foldl (λ result_message '(issue, details),
               match details with
               | Counted count list =>
                   result_message
                     ++ [Lit issue; Lit ": "; Fmt (PyInt count);
                         Lit " found. List: "; Fmt (PyList (PyVal <$> list));
                         Lit nl]
               | Found t => result_message ++ [Lit issue; Lit ": "] ++ t ++ [Lit nl]
               end)
            [Lit header; Lit nl] discrepancies
  end.

Definition validate_domain (field guard : string) (expected : list value)
    (missing_key missing_text invalid_key header ok : string)
    (data : DataFrame) : result text :=
  if negb (pd.has_column data field) then Raise (ValueError guard)
  else
    Ok (domain_message header ok
          (domain_discrepancies field expected missing_key missing_text
             invalid_key data)).

Definition expected_conditions : list value :=
  [Str "Fog"; Str "Cloudy"; Str "Sunny"; Str "Sandstorms"; Str "Windy";
   Str "Stormy"].

(** [validate_weather_condition] *)
Definition weather_discrepancies : DataFrame → dict string details :=
  domain_discrepancies "weather_condition" expected_conditions
    "missing_weather_conditions" "Missing weather conditions found: "
    "invalid_weather_conditions".

Definition validate_weather_condition : DataFrame → result text :=
  validate_domain "weather_condition"
    "The DataFrame must contain 'weather_condition' column."
    expected_conditions
    "missing_weather_conditions" "Missing weather conditions found: "
    "invalid_weather_conditions"
    "Discrepancies found in weather conditions:"
    "All weather conditions are valid and consistent.".

(** [validate_road_traffic_density] *)
Definition validate_road_traffic_density : DataFrame → result text :=
  validate_domain "road_traffic_density"
    "The DataFrame must contain 'road_traffic_density' column."
    [Str "Low"; Str "Medium"; Str "High"; Str "Jam"]
    "missing_road_traffic_density" "Missing road traffic densities found: "
    "invalid_road_traffic_density"
    "Discrepancies found in road traffic densities:"
    "All road traffic densities are valid and consistent.".

(** [validate_vehicle_condition]: the expected values are the keys of
    the dictionary [{0: "Terrible", 1: "Bad", 2: "Average", 3: "Good"}]. *)
Definition validate_vehicle_condition : DataFrame → result text :=
  validate_domain "vehicle_condition"
    "The DataFrame must contain 'vehicle_condition' column."
    [int 0; int 1; int 2; int 3]
    "missing_vehicle_conditions" "Missing vehicle conditions found: "
    "invalid_vehicle_conditions"
    "Discrepancies found in vehicle conditions:"
    "All vehicle conditions are valid and consistent.".

(** [validate_type_of_order] *)
Definition validate_type_of_order : DataFrame → result text :=
  validate_domain "type_of_order"
    "The DataFrame must contain 'type_of_order' column."
    [Str "Meal"; Str "Snack"; Str "Drinks"; Str "Buffet"]
    "missing_type_of_order" "Missing type of orders found: "
    "invalid_type_of_order"
    "Discrepancies found in type of orders:"
    "All type of orders are valid and consistent.".

(** [validate_type_of_vehicle] *)
Definition validate_type_of_vehicle : DataFrame → result text :=
  validate_domain "type_of_vehicle"
    "The DataFrame must contain 'type_of_vehicle' column."
    [Str "motorcycle"; Str "scooter"; Str "electric_scooter"; Str "bicycle"]
    "missing_type_of_vehicle" "Missing type of vehicles found: "
    "invalid_type_of_vehicle"
    "Discrepancies found in type of vehicles:"
    "All type of vehicles are valid and consistent.".

(** [validate_festival] *)
Definition validate_festival : DataFrame → result text :=
  validate_domain "festival"
    "The DataFrame must contain 'festival' column."
    [Str "No"; Str "Yes"]
    "missing_festivals" "Missing festivals found: "
    "invalid_festivals"
    "Discrepancies found in festivals:"
    "All festivals are valid and consistent.".

(** [validate_city] *)
Definition validate_city : DataFrame → result text :=
  validate_domain "city"
    "The DataFrame must contain 'city' column."
    [Str "Metropolitian"; Str "Urban"; Str "Semi-Urban"]
    "missing_cities" "Missing cities found: "
    "invalid_cities"
    "Discrepancies found in cities:"
    "All cities are valid and consistent.".

(** ** The validators as one family *)

Inductive validator :=
  | id_validator
  | delivery_person_id_validator
  | delivery_person_age_validator
  | delivery_time_validator
  | delivery_person_rating_validator
  | restaurant_coordinate_validator
  | delivery_location_coordinate_validator
  | order_date_validator
  | order_time_validator
  | weather_condition_validator
  | road_traffic_density_validator
  | vehicle_condition_validator
  | type_of_order_validator
  | type_of_vehicle_validator
  | festival_validator
  | city_validator.

(** What a validator returns: a list of messages, a dictionary of ages,
    a dictionary of issues, or one message. *)
Inductive report :=
  | Messages (l : list text)
  | Ages (d : dict value (list value))
  | Issues (d : dict value (list text))
  | Message (t : text).

(** The columns each guard asks for, and the text of its [ValueError]. *)
Definition required_columns (v : validator) : list string :=
  match v with
  | id_validator | delivery_person_id_validator =>
      ["id"; "delivery_person_id"]
  | delivery_person_age_validator =>
      ["delivery_person_id"; "delivery_person_age"]
  | delivery_time_validator => ["delivery_time"]
  | delivery_person_rating_validator =>
      ["delivery_person_id"; "delivery_person_rating"]
  | restaurant_coordinate_validator =>
      ["restaurant_id"; "restaurant_latitude"; "restaurant_longitude"]
  | delivery_location_coordinate_validator =>
      ["delivery_location_id"; "delivery_location_latitude";
       "delivery_location_longitude"]
  | order_date_validator => ["order_date"]
  | order_time_validator => ["time_ordered"; "time_order_picked"]
  | weather_condition_validator => ["weather_condition"]
  | road_traffic_density_validator => ["road_traffic_density"]
  | vehicle_condition_validator => ["vehicle_condition"]
  | type_of_order_validator => ["type_of_order"]
  | type_of_vehicle_validator => ["type_of_vehicle"]
  | festival_validator => ["festival"]
  | city_validator => ["city"]
  end.

Section call.
Variable to_datetime
  : option dtype → list value → result (bool * list (option Z)).
Variable now : Z.
Variable strptime : string → option Z.

(** A call of a validator on the caller's frame: what it returns or
    raises, and the frame the caller holds afterwards. *)
Definition call (v : validator) (data : DataFrame)
    : result report * DataFrame :=
  match v with
  | id_validator => (Messages <$> validate_id data, data)
  | delivery_person_id_validator =>
      (Messages <$> validate_delivery_person_id data, data)
  | delivery_person_age_validator =>
      (Ages <$> validate_delivery_person_age data, data)
  | delivery_time_validator =>
      (Messages <$> validate_delivery_time data, data)
  | delivery_person_rating_validator =>
      (Message <$> validate_delivery_person_rating data, data)
  | restaurant_coordinate_validator =>
      (Issues <$> validate_restaurant_coordinate data, data)
  | delivery_location_coordinate_validator =>
      (Issues <$> validate_delivery_location_coordinate data, data)
  | order_date_validator =>
      let '(r, data) := validate_order_date to_datetime now data in
      (Message <$> r, data)
  | order_time_validator =>
      (Message <$> validate_order_time strptime data, data)
  | weather_condition_validator =>
      (Message <$> validate_weather_condition data, data)
  | road_traffic_density_validator =>
      (Message <$> validate_road_traffic_density data, data)
  | vehicle_condition_validator =>
      (Message <$> validate_vehicle_condition data, data)
  | type_of_order_validator =>
      (Message <$> validate_type_of_order data, data)
  | type_of_vehicle_validator =>
      (Message <$> validate_type_of_vehicle data, data)
  | festival_validator => (Message <$> validate_festival data, data)
  | city_validator => (Message <$> validate_city data, data)
  end.
End call.

(** ** Readers for the examples

    The validators take pandas' date and time readers as arguments.  The
    examples below run them with two small readers: calendar dates
    written [YYYY-MM-DD] and times written [HH:MM:SS]; any other string
    is not read. *)

Definition digit (c : ascii) : option Z :=
  let n := Z.of_nat (nat_of_ascii c) in
  if bool_decide (48 ≤ n ≤ 57)%Z then Some (n - 48)%Z else None.

Definition two_digits (a b : ascii) : option Z :=
  x ← digit a; y ← digit b; Some (10 * x + y)%Z.

Definition is_leap (y : Z) : bool :=
  bool_decide (y mod 4 = 0)%Z
  && (negb (bool_decide (y mod 100 = 0)%Z) || bool_decide (y mod 400 = 0)%Z).

Definition days_in_month (y m : Z) : Z :=
  if bool_decide (m = 2)%Z then (if is_leap y then 29 else 28)%Z
  else if bool_decide (m ∈ [4; 6; 9; 11]%Z) then 30%Z
  else 31%Z.

(** Days from 1970-01-01 to a date of the Gregorian calendar. *)
Definition days_from_civil (y m d : Z) : Z :=
  let y' := (if bool_decide (m ≤ 2)%Z then y - 1 else y)%Z in
  let era := (y' / 400)%Z in
  let yoe := (y' - era * 400)%Z in
  let mp := (if bool_decide (m ≤ 2)%Z then m + 9 else m - 3)%Z in
  let doy := ((153 * mp + 2) / 5 + d - 1)%Z in
  let doe := (yoe * 365 + yoe / 4 - yoe / 100 + doy)%Z in
  (era * 146097 + doe - 719468)%Z.

(** The instant, in nanoseconds, of a date written [YYYY-MM-DD]. *)
Definition read_date (s : string) : option Z :=
  match list_ascii_of_string s with
  | [y1; y2; y3; y4; "-"%char; m1; m2; "-"%char; d1; d2] =>
      hi ← two_digits y1 y2; lo ← two_digits y3 y4;
      m ← two_digits m1 m2; d ← two_digits d1 d2;
      let y := (100 * hi + lo)%Z in
      if bool_decide (1 ≤ m ≤ 12)%Z
         && bool_decide (1 ≤ d ≤ days_in_month y m)%Z
      then Some (days_from_civil y m d * 86400000000000)%Z
      else None
  | _ => None
  end.

(** A column read cell by cell: dates as above, instants kept, numbers
    taken as nanoseconds.  The dates it reads have no time zone; a
    column of timestamps keeps the one it has. *)
Definition sample_to_datetime (dtype : option dtype) (col : list value)
    : result (bool * list (option Z)) :=
  Ok (match dtype with Some (datetime64 tz) => tz | _ => false end,
      (λ v, match v with
            | NA => None
            | Str s => read_date s
            | Num q => Some (Qfloor (this q))
            | Timestamp t => Some t
            end) <$> col).

(** The second of the day of a time written [HH:MM:SS]. *)
Definition sample_strptime (s : string) : option Z :=
  match list_ascii_of_string s with
  | [h1; h2; ":"%char; m1; m2; ":"%char; s1; s2] =>
      h ← two_digits h1 h2; m ← two_digits m1 m2; sec ← two_digits s1 s2;
      if bool_decide (h < 24)%Z && bool_decide (m < 60)%Z
         && bool_decide (sec < 60)%Z
      then Some (3600 * h + 60 * m + sec)%Z
      else None
  | _ => None
  end.

(** ** Vocabulary of the properties *)

(** Whether some cell of a series satisfies a comparison, the first
    cell that cannot be compared raising. *)
Fixpoint any_true (f : value → result bool) (cells : list value)
    : result bool :=
  match cells with
  | [] => Ok false
  | v :: cells' => b ← f v; bs ← any_true f cells'; Ok (b || bs)
  end.

(** The two reports of [validate_delivery_time]. *)
Definition negative_message : text := [Lit "Negative delivery times found."].
Definition high_message : text :=
  [Lit "Delivery times exceeding 120 minutes found."].

(** The rows with a missing cell, and the rows the validator calls
    invalid: those whose cell is not [isin] the expected values. *)
Definition missing_rows (c : string) (data : DataFrame) : list row :=
  filter (λ r, pd.isnull (cell r c) = true) (rows data).

Definition invalid_rows (c : string) (expected : list value)
    (data : DataFrame) : list row :=
  filter (λ r, negb (pd.isin expected (cell r c)) = true) (rows data).

(** A cell fails to parse when reading it raises. *)
Definition unparseable (strptime : string → option Z) (v : value) : bool :=
  match to_datetime_format strptime v with
  | Raise _ => true
  | Ok _ => false
  end.

(** The two categories of the loop, as predicates on a row. *)
Definition invalid_time_row (strptime : string → option Z) (r : row)
    : bool :=
  unparseable strptime (cell r "time_ordered")
  || unparseable strptime (cell r "time_order_picked").

Definition inconsistent_time_row (strptime : string → option Z) (r : row)
    : bool :=
  match to_datetime_format strptime (cell r "time_ordered"),
        to_datetime_format strptime (cell r "time_order_picked") with
  | Ok (Some time_ordered), Ok (Some time_order_picked) =>
      bool_decide (time_order_picked < time_ordered)%Z
  | _, _ => false
  end.

Definition time_pair (r : row) : value * value :=
  (cell r "time_ordered", cell r "time_order_picked").

(** The text each guard raises. *)
Definition guard_message (v : validator) : string :=
  match v with
  | id_validator | delivery_person_id_validator =>
      "The DataFrame must contain 'id' and 'delivery_person_id' columns."
  | delivery_person_age_validator =>
      "The DataFrame must contain 'delivery_person_id' and 'delivery_person_age' columns."
  | delivery_time_validator =>
      "The DataFrame must contain 'delivery_time' column."
  | delivery_person_rating_validator =>
      "The DataFrame must contain 'delivery_person_id' and 'delivery_person_rating' columns."
  | restaurant_coordinate_validator =>
      "The DataFrame must contain 'restaurant_id', 'restaurant_latitude', and 'restaurant_longitude' columns."
  | delivery_location_coordinate_validator =>
      "The DataFrame must contain 'delivery_location_id', 'delivery_location_latitude', and 'delivery_location_longitude' columns."
  | order_date_validator =>
      "The DataFrame must contain 'order_date' column."
  | order_time_validator =>
      "The DataFrame must contain 'time_ordered' and 'time_order_picked' columns."
  | weather_condition_validator =>
      "The DataFrame must contain 'weather_condition' column."
  | road_traffic_density_validator =>
      "The DataFrame must contain 'road_traffic_density' column."
  | vehicle_condition_validator =>
      "The DataFrame must contain 'vehicle_condition' column."
  | type_of_order_validator =>
      "The DataFrame must contain 'type_of_order' column."
  | type_of_vehicle_validator =>
      "The DataFrame must contain 'type_of_vehicle' column."
  | festival_validator => "The DataFrame must contain 'festival' column."
  | city_validator => "The DataFrame must contain 'city' column."
  end.

(** [needle in hay] *)
Fixpoint contains (needle hay : string) : bool :=
  String.prefix needle hay
  || match hay with
     | EmptyString => false
     | String _ hay' => contains needle hay'
     end.

Definition quoted (c : string) : string := "'" +:+ c +:+ "'".

(** The ages of a delivery person, as the validator lists them. *)
Definition ages_of (data : DataFrame) (k : value) : list value :=
  pd.unique
    (pd.group_of k (rows data) "delivery_person_id" "delivery_person_age").

Definition id_message (k : value) : text :=
  [Lit "ID "; Fmt (PyVal k); Lit " has multiple delivery_person_ids."].

Definition delivery_person_message (k : value) : text :=
  [Lit "Delivery Person ID "; Fmt (PyVal k); Lit " has multiple ids."].

(** The keys a pass of [validate_id] reports: the keys of the groups in
    which [nunique] counts more than one dependent cell. *)
Definition violating (data : DataFrame) (key dep : string) : list value :=
  filter (λ k, 1 < pd.nunique (pd.group_of k (rows data) key dep))
    (pd.group_keys (pd.column data key)).

(** Two rows of a key that carry different dependent cells, neither of
    them missing. *)
Definition conflicting (rs : list row) (key dep : string) (k : value)
    : Prop :=
  ∃ r1 r2, r1 ∈ rs ∧ r2 ∈ rs
           ∧ cell r1 key = k ∧ cell r2 key = k
           ∧ cell r1 dep ≠ NA ∧ cell r2 dep ≠ NA
           ∧ cell r1 dep ≠ cell r2 dep.

(** [data[data[c].notnull()]]: the frame without the rows whose cell
    under [c] is missing. *)
Definition dropna (c : string) (data : DataFrame) : DataFrame :=
  pd.select (pd.notnull <$> pd.column data c) data.

(** The order of the keys of [groupby], as a relation. *)
Definition value_le (a b : value) : Prop := pd.value_leb a b = true.

(** The column, the expected values and the all-clear of each of the
    seven validators of a column against a set of expected values. *)
Definition domain_rule (v : validator)
    : option (string * list value * string) :=
  match v with
  | weather_condition_validator =>
      Some ("weather_condition", expected_conditions,
            "All weather conditions are valid and consistent.")
  | road_traffic_density_validator =>
      Some ("road_traffic_density",
            [Str "Low"; Str "Medium"; Str "High"; Str "Jam"],
            "All road traffic densities are valid and consistent.")
  | vehicle_condition_validator =>
      Some ("vehicle_condition", [int 0; int 1; int 2; int 3],
            "All vehicle conditions are valid and consistent.")
  | type_of_order_validator =>
      Some ("type_of_order",
            [Str "Meal"; Str "Snack"; Str "Drinks"; Str "Buffet"],
            "All type of orders are valid and consistent.")
  | type_of_vehicle_validator =>
      Some ("type_of_vehicle",
            [Str "motorcycle"; Str "scooter"; Str "electric_scooter";
             Str "bicycle"],
            "All type of vehicles are valid and consistent.")
  | festival_validator =>
      Some ("festival", [Str "No"; Str "Yes"],
            "All festivals are valid and consistent.")
  | city_validator =>
      Some ("city", [Str "Metropolitian"; Str "Urban"; Str "Semi-Urban"],
            "All cities are valid and consistent.")
  | _ => None
  end.

(** An instant after the clock. *)
Definition in_future (now : Z) (v : value) : bool :=
  match v with Timestamp t => bool_decide (now < t)%Z | _ => false end.

(** A rating below 1, and one above 5; a missing rating is neither. *)
Definition rating_low (v : value) : bool :=
  match v with Num q => bool_decide (q < Qc_of_Z 1)%Qc | _ => false end.

Definition rating_high (v : value) : bool :=
  match v with Num q => bool_decide (Qc_of_Z 5 < q)%Qc | _ => false end.

(** * Properties *)

(** ** Examples *)

Example read_date_day_two :
  read_date "1970-01-02" = Some 86400000000000%Z.
Proof. vm_compute. reflexivity. Qed.

Example read_date_no_leap_day : read_date "2023-02-29" = None.
Proof. vm_compute. reflexivity. Qed.

Example sample_strptime_evening :
  sample_strptime "18:45:10" = Some 67510%Z.
Proof. vm_compute. reflexivity. Qed.

Example sample_strptime_no_hour : sample_strptime "24:00:00" = None.
Proof. vm_compute. reflexivity. Qed.

Example validate_delivery_time_both :
  validate_delivery_time
    (mkDataFrame ["delivery_time"]
       [ {["delivery_time" := int 30]}; {["delivery_time" := int (-5)]};
         {["delivery_time" := NA]}; {["delivery_time" := int 121]} ])
  = Ok [[Lit "Negative delivery times found."];
        [Lit "Delivery times exceeding 120 minutes found."]].
Proof. vm_compute. reflexivity. Qed.

Example validate_delivery_time_bounds :
  validate_delivery_time
    (mkDataFrame ["delivery_time"]
       [ {["delivery_time" := int 0]}; {["delivery_time" := int 120]} ])
  = Ok [].
Proof. vm_compute. reflexivity. Qed.

Example validate_weather_condition_foggy :
  validate_weather_condition
    (mkDataFrame ["weather_condition"]
       [ {["weather_condition" := Str "Sunny"]};
         {["weather_condition" := Str "Foggy"]};
         {["weather_condition" := Str "Cloudy"]} ])
  = Ok [Lit "Discrepancies found in weather conditions:"; Lit nl;
        Lit "invalid_weather_conditions"; Lit ": "; Fmt (PyInt 1);
        Lit " found. List: "; Fmt (PyList [PyVal (Str "Foggy")]); Lit nl].
Proof. vm_compute. reflexivity. Qed.

Example validate_delivery_person_id_passes :
  validate_delivery_person_id
    (mkDataFrame ["id"; "delivery_person_id"]
       [ <["id" := Str "0x4607"]> {["delivery_person_id" := Str "DEL02"]};
         <["id" := Str "0xb379"]> {["delivery_person_id" := Str "DEL13"]} ])
  = Ok [[Lit "Validation passed: All IDs and delivery_person_ids are consistent."]].
Proof. vm_compute. reflexivity. Qed.

Example validate_id_both_directions :
  validate_id
    (mkDataFrame ["id"; "delivery_person_id"]
       [ <["id" := Str "b"]> {["delivery_person_id" := Str "DEL02"]};
         <["id" := Str "a"]> {["delivery_person_id" := Str "DEL02"]};
         <["id" := Str "a"]> {["delivery_person_id" := Str "DEL13"]} ])
  = Ok [id_message (Str "a"); delivery_person_message (Str "DEL02")].
Proof. vm_compute. reflexivity. Qed.

(** [groupby] sorts its keys, and a number cannot be compared with a
    timestamp. *)
Example validate_id_unsortable_keys :
  validate_id
    (mkDataFrame ["id"; "delivery_person_id"]
       [ <["id" := int 1]> {["delivery_person_id" := Str "DEL02"]};
         <["id" := Timestamp 5]> {["delivery_person_id" := Str "DEL13"]} ])
  = Raise TypeError.
Proof. vm_compute. reflexivity. Qed.

(** [pd.to_datetime(None, ...)] is [None], and a time cannot be compared
    with it. *)
Example validate_order_time_None :
  validate_order_time sample_strptime
    (DataFrame_of ["time_ordered"; "time_order_picked"]
       [ <["time_ordered" := NA]> {["time_order_picked" := Str "10:00:00"]} ]
       {["time_ordered" := object_None]})
  = Raise TypeError.
Proof. vm_compute. reflexivity. Qed.

(** The same row with [NaN] for the missing cell is read as [NaT], and
    only counted as missing. *)
Example validate_order_time_NaN :
  validate_order_time sample_strptime
    (mkDataFrame ["time_ordered"; "time_order_picked"]
       [ <["time_ordered" := NA]> {["time_order_picked" := Str "10:00:00"]} ])
  = Ok [Lit "Discrepancies found in order times:"; Lit nl;
        Lit "missing_time_ordered"; Lit ": ";
        Lit "Missing time_ordered found: "; Fmt (PyInt 1); Lit nl].
Proof. vm_compute. reflexivity. Qed.

(** ** Masks and boolean indexing *)

(** A frame selected by a mask is empty exactly when the mask is
    nowhere true. *)
Lemma series_map_any (f : value → result bool) (c : string)
    (rs : list row) :
  (m ← pd.series_map f ((λ r, cell r c) <$> rs);
   Ok (negb (bool_decide (pd.select_rows m rs = []))))
  = any_true f ((λ r, cell r c) <$> rs).
Proof.
  induction rs as [|r rs IH]; [done|].
  rewrite fmap_cons. cbn [pd.series_map any_true].
  destruct (f (cell r c)) as [b|e]; [|done].
  cbn [mbind result_bind].
  revert IH. destruct (pd.series_map f ((λ r, cell r c) <$> rs)) as [m|e];
    destruct (any_true f ((λ r, cell r c) <$> rs)) as [bs|e'];
    cbn [mbind result_bind]; intros IH; try discriminate IH.
  - injection IH as <-. by destruct b.
  - by injection IH as <-.
Qed.

(** Dropping rows on which the comparison is [False] changes neither
    the answer nor the error. *)
Lemma any_true_select (f : value → result bool) (c : string)
    (keep : list bool) (rs : list row) :
  length keep = length rs →
  (∀ i r, rs !! i = Some r → keep !! i = Some false →
          f (cell r c) = Ok false) →
  any_true f ((λ r, cell r c) <$> pd.select_rows keep rs)
  = any_true f ((λ r, cell r c) <$> rs).
Proof.
  revert rs. induction keep as [|b keep IH]; intros [|r rs] Hlen Hdrop;
    simpl in Hlen; try discriminate Hlen; [done|].
  assert (IH' : any_true f ((λ r, cell r c) <$> pd.select_rows keep rs)
                = any_true f ((λ r, cell r c) <$> rs)).
  { apply IH; [lia|]. intros i r' Hr Hk. by apply (Hdrop (S i) r'). }
  rewrite fmap_cons. destruct b; cbn [pd.select_rows].
  - rewrite fmap_cons. cbn [any_true]. by rewrite IH'.
  - cbn [any_true]. rewrite (Hdrop 0 r) by done.
    cbn [mbind result_bind]. rewrite IH'.
    destruct (any_true f ((λ r, cell r c) <$> rs)); reflexivity.
Qed.

Lemma any_true_all_false (f : value → result bool) (cells : list value) :
  (∀ v, v ∈ cells → f v = Ok false) → any_true f cells = Ok false.
Proof.
  induction cells as [|v cells IH]; intros H; [done|].
  cbn [any_true]. rewrite (H v) by left. cbn [mbind result_bind].
  rewrite IH; [done|]. intros w Hw. apply H. by right.
Qed.

Lemma has_column_nonempty (data : DataFrame) (c : string) :
  pd.has_column data c = true → bool_decide (columns data = []) = false.
Proof.
  unfold pd.has_column. intros H%bool_decide_eq_true.
  apply bool_decide_eq_false. intros Heq. rewrite Heq in H. inversion H.
Qed.

(** ** [validate_delivery_time] *)

(** The list [validate_delivery_time] returns, from the two questions it
    asks of the column. *)
Lemma validate_delivery_time_eq (data : DataFrame) :
  pd.has_column data "delivery_time" = true →
  validate_delivery_time data
  = if pd.is_datetime64_any_dtype data "delivery_time" then Raise TypeError
    else
      any_true (pd.lt_scalar (Qc_of_Z 0)) (pd.column data "delivery_time")
        ≫= λ neg : bool,
      any_true (pd.gt_scalar (Qc_of_Z 120)) (pd.column data "delivery_time")
        ≫= λ high : bool,
      Ok ((if neg then [negative_message] else [])
            ++ (if high then [high_message] else [])).
Proof.
  intros Hcol. unfold validate_delivery_time. rewrite Hcol. simpl.
  pose proof (has_column_nonempty _ _ Hcol) as Hne.
  unfold pd.lt, pd.gt.
  destruct (pd.is_datetime64_any_dtype data "delivery_time"); [done|].
  unfold pd.column, pd.empty, pd.select. simpl.
  rewrite Hne.
  rewrite <- !series_map_any.
  destruct (pd.series_map (pd.lt_scalar _) _) as [neg|e]; simpl; [|done].
  destruct (pd.series_map (pd.gt_scalar _) _) as [high|e]; simpl; [|done].
  rewrite !orb_false_r.
  by destruct (bool_decide (pd.select_rows neg _ = [])),
              (bool_decide (pd.select_rows high _ = [])).
Qed.

(** C10, as the code has it.  A missing delivery time answers [False]
    to both comparisons, so leaving out (or adding) rows whose
    [delivery_time] is missing does not change what the validator
    returns or raises.  A frame whose delivery times are all missing
    yields the empty list when the column is a column of numbers or of
    objects; when it is a [datetime64] column, whose missing cells are
    [NaT], the comparison with 0 raises [TypeError]. *)
Theorem validate_delivery_time_ignores_missing (data : DataFrame) :
  pd.has_column data "delivery_time" = true →
  (pd.lt_scalar (Qc_of_Z 0) NA = Ok false
   ∧ pd.gt_scalar (Qc_of_Z 120) NA = Ok false)
  ∧ (∀ keep : list bool,
       length keep = length (rows data) →
       (∀ i r, rows data !! i = Some r → keep !! i = Some false →
               cell r "delivery_time" = NA) →
       validate_delivery_time (pd.select keep data)
       = validate_delivery_time data)
  ∧ ((∀ r, r ∈ rows data → cell r "delivery_time" = NA) →
     validate_delivery_time data
     = if pd.is_datetime64_any_dtype data "delivery_time"
       then Raise TypeError else Ok []).
Proof.
  intros Hcol. split; [done|]. split.
  - intros keep Hlen Hdrop.
    rewrite !validate_delivery_time_eq by done.
    change (pd.is_datetime64_any_dtype (pd.select keep data))
      with (pd.is_datetime64_any_dtype data).
    destruct (pd.is_datetime64_any_dtype data "delivery_time"); [done|].
    unfold pd.column, pd.select. cbn [rows].
    rewrite !any_true_select; [done|done| |done|].
    + intros i r Hr Hk. by rewrite (Hdrop i r).
    + intros i r Hr Hk. by rewrite (Hdrop i r).
  - intros Hall. rewrite validate_delivery_time_eq by done.
    destruct (pd.is_datetime64_any_dtype data "delivery_time"); [done|].
    rewrite !any_true_all_false; [done| |].
    + intros v (r & -> & Hr)%list_elem_of_fmap. by rewrite Hall.
    + intros v (r & -> & Hr)%list_elem_of_fmap. by rewrite Hall.
Qed.

Lemma validate_delivery_time_ignores_missing_witness :
  let data :=
    mkDataFrame ["delivery_time"]
      [ {["delivery_time" := int 30]}; {["delivery_time" := NA]};
        {["delivery_time" := int 130]} ] in
  let blank :=
    mkDataFrame ["delivery_time"]
      [ {["delivery_time" := NA]}; {["delivery_time" := NA]} ] in
  validate_delivery_time (pd.select [true; false; true] data)
  = validate_delivery_time data
  ∧ validate_delivery_time blank = Ok [].
Proof.
  intros data blank. split.
  - destruct (validate_delivery_time_ignores_missing data eq_refl)
      as (_ & Hkeep & _).
    apply Hkeep; [reflexivity|].
    intros [|[|[|i]]] r Hr Hk; try discriminate Hk;
      injection Hr as <-; reflexivity.
  - destruct (validate_delivery_time_ignores_missing blank eq_refl)
      as (_ & _ & Hall).
    rewrite Hall; [reflexivity|]. intros r Hr.
    apply elem_of_cons in Hr as [->|Hr]; [reflexivity|].
    apply elem_of_cons in Hr as [->|Hr]; [reflexivity|].
    inversion Hr.
Defined.

(** C10, as stated, fails on a [delivery_time] column of dtype
    [datetime64] whose cells are all missing: the validator does not
    return the empty list, it raises. *)
Lemma validate_delivery_time_all_missing_counterexample :
  let data :=
    DataFrame_of ["delivery_time"]
      [ {["delivery_time" := NA]}; {["delivery_time" := NA]} ]
      {["delivery_time" := datetime64 false]} in
  pd.has_column data "delivery_time" = true
  ∧ (∀ r, r ∈ rows data → cell r "delivery_time" = NA)
  ∧ validate_delivery_time data = Raise TypeError
  ∧ validate_delivery_time data ≠ Ok [].
Proof.
  intros data. split; [reflexivity|]. split.
  - intros r Hr.
    apply elem_of_cons in Hr as [->|Hr]; [reflexivity|].
    apply elem_of_cons in Hr as [->|Hr]; [reflexivity|].
    inversion Hr.
  - assert (H : validate_delivery_time data = Raise TypeError)
      by (vm_compute; reflexivity).
    split; [exact H|]. rewrite H. discriminate.
Qed.

(** ** Validators of a column against a set of expected values *)

Lemma select_rows_fmap (f : row → bool) (rs : list row) :
  pd.select_rows (f <$> rs) rs = filter (λ r, f r = true) rs.
Proof.
  induction rs as [|r rs IH]; [done|].
  rewrite fmap_cons. cbn [pd.select_rows]. rewrite IH.
  destruct (f r) eqn:Hf.
  - by rewrite filter_cons_True.
  - rewrite filter_cons_False; [done|]. by rewrite Hf.
Qed.

Lemma select_column (g : value → bool) (c : string) (data : DataFrame) :
  rows (pd.select (g <$> pd.column data c) data)
  = filter (λ r, g (cell r c) = true) (rows data).
Proof.
  unfold pd.select, pd.column. cbn [rows].
  rewrite <- list_fmap_compose. apply select_rows_fmap.
Qed.

Lemma column_select (g : value → bool) (c c' : string) (data : DataFrame) :
  pd.column (pd.select (g <$> pd.column data c) data) c'
  = (λ r, cell r c') <$> filter (λ r, g (cell r c) = true) (rows data).
Proof. unfold pd.column at 1. by rewrite select_column. Qed.

Lemma empty_select (g : value → bool) (c d : string) (data : DataFrame) :
  pd.has_column data d = true →
  pd.empty (pd.select (g <$> pd.column data c) data)
  = bool_decide (filter (λ r, g (cell r c) = true) (rows data) = []).
Proof.
  intros Hcol. unfold pd.empty. rewrite select_column.
  cbn [columns pd.select]. rewrite (has_column_nonempty _ _ Hcol).
  apply orb_false_r.
Qed.

Lemma domain_discrepancies_eq (field : string) (expected : list value)
    (missing_key missing_text invalid_key : string) (data : DataFrame) :
  pd.has_column data field = true →
  missing_key ≠ invalid_key →
  domain_discrepancies field expected missing_key missing_text invalid_key
    data
  = (if bool_decide (missing_rows field data = []) then []
     else [(missing_key,
            Found [Lit missing_text;
                   Fmt (PyInt (length (missing_rows field data)))])])
    ++ (if bool_decide (invalid_rows field expected data = []) then []
        else [(invalid_key,
               Counted (length (invalid_rows field expected data))
                 (pd.unique ((λ r, cell r field)
                               <$> invalid_rows field expected data)))]).
Proof.
  intros Hcol Hne. unfold domain_discrepancies.
  rewrite !(empty_select _ field field) by done.
  unfold pd.len, pd.column at 3. rewrite !select_column.
  fold (missing_rows field data). fold (invalid_rows field expected data).
  destruct (bool_decide (missing_rows field data = []));
    destruct (bool_decide (invalid_rows field expected data = []));
    cbn [negb dict_set app]; try done.
  by rewrite decide_False.
Qed.

(** A missing cell is never [isin] the expected values: every row with
    a missing cell is among the invalid rows. *)
Lemma missing_rows_invalid (c : string) (expected : list value)
    (data : DataFrame) (r : row) :
  r ∈ missing_rows c data → r ∈ invalid_rows c expected data.
Proof.
  unfold missing_rows, invalid_rows. rewrite !list_elem_of_filter.
  intros [Hnull Hr]. split; [|done].
  unfold pd.isin, pd.notnull. by rewrite Hnull.
Qed.

Lemma missing_rows_le_invalid (c : string) (expected : list value)
    (data : DataFrame) :
  (length (missing_rows c data) ≤ length (invalid_rows c expected data))%nat.
Proof.
  unfold missing_rows, invalid_rows.
  induction (rows data) as [|r rs IH]; [done|].
  rewrite !filter_cons.
  destruct (decide (pd.isnull (cell r c) = true)) as [Hnull|Hnull].
  - rewrite decide_True; [cbn [length]; lia|].
    unfold pd.isin, pd.notnull. by rewrite Hnull.
  - destruct (decide _); cbn [length]; lia.
Qed.

Lemma elem_of_unique (v : value) (l : list value) :
  v ∈ pd.unique l ↔ v ∈ l.
Proof.
  induction l as [|x l IH]; [done|]. cbn [pd.unique].
  rewrite !elem_of_cons, list_elem_of_filter, IH.
  destruct (decide (v = x)) as [->|Hne]; [by split; [left|left]|].
  split; [intros [H|[_ H]]; [by left|by right]|].
  intros [H|H]; [by left|by right].
Qed.

Lemma NoDup_unique (l : list value) : NoDup (pd.unique l).
Proof.
  induction l as [|x l IH]; [constructor|]. cbn [pd.unique].
  constructor; [|by apply NoDup_filter].
  rewrite list_elem_of_filter. by intros [H _].
Qed.

(** ** [validate_weather_condition] *)

(** C6, as the code has it: a row whose [weather_condition] is missing
    is reported under the missing-values entry and is also one of the
    rows counted as invalid, because a missing cell is not [isin] the
    expected conditions; so the invalid count is at least the missing
    count, and the invalid list holds the missing marker as soon as one
    row is missing. *)
Theorem weather_missing_counted_as_invalid (data : DataFrame) :
  pd.has_column data "weather_condition" = true →
  let missing := missing_rows "weather_condition" data in
  let invalid := invalid_rows "weather_condition" expected_conditions data in
  validate_weather_condition data
  = Ok (domain_message "Discrepancies found in weather conditions:"
          "All weather conditions are valid and consistent."
          (weather_discrepancies data))
  ∧ weather_discrepancies data
    = (if bool_decide (missing = []) then []
       else [("missing_weather_conditions",
              Found [Lit "Missing weather conditions found: ";
                     Fmt (PyInt (length missing))])])
      ++ (if bool_decide (invalid = []) then []
          else [("invalid_weather_conditions",
                 Counted (length invalid)
                   (pd.unique ((λ r, cell r "weather_condition")
                                 <$> invalid)))])
  ∧ (∀ r, r ∈ missing → r ∈ invalid)
  ∧ (length missing ≤ length invalid)%nat
  ∧ (missing ≠ [] →
     NA ∈ pd.unique ((λ r, cell r "weather_condition") <$> invalid)).
Proof.
  intros Hcol missing invalid. repeat split.
  - unfold validate_weather_condition, validate_domain. by rewrite Hcol.
  - by apply domain_discrepancies_eq.
  - apply missing_rows_invalid.
  - apply missing_rows_le_invalid.
  - intros Hne. destruct missing as [|r rs] eqn:Hm; [done|].
    assert (Hr : r ∈ missing_rows "weather_condition" data).
    { fold missing. rewrite Hm. left. }
    apply elem_of_unique, list_elem_of_fmap. exists r. split.
    + unfold missing_rows in Hr. apply list_elem_of_filter in Hr as [Hnull _].
      by destruct (cell r "weather_condition").
    + by eapply missing_rows_invalid.
Qed.

Lemma weather_missing_counted_as_invalid_witness :
  let data :=
    mkDataFrame ["weather_condition"]
      [ {["weather_condition" := Str "Sunny"]};
        {["weather_condition" := NA]};
        {["weather_condition" := Str "Foggy"]} ] in
  weather_discrepancies data
  = [("missing_weather_conditions",
      Found [Lit "Missing weather conditions found: "; Fmt (PyInt 1)]);
     ("invalid_weather_conditions", Counted 2 [NA; Str "Foggy"])].
Proof.
  intros data.
  destruct (weather_missing_counted_as_invalid data eq_refl)
    as (_ & Heq & _).
  rewrite Heq. vm_compute. reflexivity.
Defined.

(** C6, as stated, fails on a frame whose only row has a missing
    [weather_condition]: the row is counted among the invalid
    conditions. *)
Lemma weather_missing_not_invalid_counterexample :
  let data :=
    mkDataFrame ["weather_condition"] [ {["weather_condition" := NA]} ] in
  pd.has_column data "weather_condition" = true
  ∧ dict_get (weather_discrepancies data) "invalid_weather_conditions"
    = Some (Counted 1 [NA])
  ∧ ¬ (dict_get (weather_discrepancies data) "invalid_weather_conditions"
       = None).
Proof. vm_compute. split; [done|]. split; [done|]. discriminate. Qed.

(** ** [validate_order_time] *)

Section order_time_properties.
Variable strptime : string → option Z.

Lemma to_datetime_format_raises (v : value) (e : exception) :
  to_datetime_format strptime v = Raise e → ∃ msg, e = ValueError msg.
Proof.
  destruct v as [|s|q|t]; cbn [to_datetime_format]; try discriminate.
  - destruct (bool_decide _); [discriminate|].
    destruct (strptime s); [discriminate|]. intros [= <-]. eauto.
  - intros [= <-]. eauto.
Qed.


Lemma order_time_step_eq (da db : option dtype)
    (invalid inconsistent : list (value * value)) (r : row) :
  kind_of da (cell r "time_ordered") = naive →
  kind_of db (cell r "time_order_picked") = naive →
  order_time_step strptime da db (Ok (invalid, inconsistent)) r
  = Ok (invalid ++ (if invalid_time_row strptime r then [time_pair r] else []),
        inconsistent
          ++ (if inconsistent_time_row strptime r then [time_pair r] else [])).
Proof.
  intros Hka Hkb.
  unfold order_time_step, invalid_time_row, inconsistent_time_row,
    unparseable, time_pair.
  rewrite Hka, Hkb. unfold time_lt.
  cbn [mbind result_bind andb fst snd].
  destruct (to_datetime_format strptime (cell r "time_ordered"))
    as [a|e] eqn:Ha; cbn [mbind result_bind orb].
  - destruct (to_datetime_format strptime (cell r "time_order_picked"))
      as [b|e] eqn:Hb; cbn [mbind result_bind].
    + destruct a as [s|], b as [t|]; cbn [mbind result_bind];
        rewrite ?app_nil_r; try done.
      rewrite bool_decide_eq_true_2 by done. cbn [mbind result_bind].
      destruct (bool_decide (t < s)%Z); by rewrite ?app_nil_r.
    + apply to_datetime_format_raises in Hb as [msg ->].
      destruct a; by rewrite app_nil_r.
  - apply to_datetime_format_raises in Ha as [msg ->].
    by rewrite app_nil_r.
Qed.

Lemma order_time_fold (da db : option dtype) (rs : list row)
    (invalid inconsistent : list (value * value)) :
  (∀ r, r ∈ rs → kind_of da (cell r "time_ordered") = naive
                 ∧ kind_of db (cell r "time_order_picked") = naive) →
  foldl (order_time_step strptime da db) (Ok (invalid, inconsistent)) rs
  = Ok (invalid
          ++ (time_pair <$> filter (λ r, invalid_time_row strptime r = true) rs),
        inconsistent
          ++ (time_pair
                <$> filter (λ r, inconsistent_time_row strptime r = true) rs)).
Proof.
  intros Hkind. revert invalid inconsistent.
  induction rs as [|r rs IH]; intros invalid inconsistent;
    cbn [foldl].
  - by rewrite !filter_nil, !fmap_nil, !app_nil_r.
  - destruct (Hkind r) as [Hka Hkb]; [by left|].
    rewrite order_time_step_eq, IH, !filter_cons by
      (done || (intros r' Hr'; apply Hkind; by right)).
    destruct (invalid_time_row strptime r), (inconsistent_time_row strptime r);
      rewrite ?decide_True, ?decide_False by done;
      by rewrite ?fmap_cons, <- ?app_assoc, ?app_nil_r.
Qed.

Lemma order_time_scan_naive (data : DataFrame) :
  (∀ r, r ∈ rows data →
        kind_of (dtypes data !! "time_ordered") (cell r "time_ordered")
        = naive
        ∧ kind_of (dtypes data !! "time_order_picked")
            (cell r "time_order_picked") = naive) →
  order_time_scan strptime data
  = Ok (time_pair <$> filter (λ r, invalid_time_row strptime r = true)
                        (rows data),
        time_pair <$> filter (λ r, inconsistent_time_row strptime r = true)
                        (rows data)).
Proof.
  intros Hkind. unfold order_time_scan. by rewrite order_time_fold.
Qed.



Lemma filter_isnull (c : string) (rs : list row) :
  filter (λ r, pd.isnull (cell r c) = true) rs
  = filter (λ r, cell r c = NA) rs.
Proof.
  apply list_filter_iff. intros r. by destruct (cell r c).
Qed.


End order_time_properties.



(** ** The coordinate validators *)

Lemma series_map_raises (k : Qc) (f : Qc → value → result bool)
    (col : list value) (e : exception) :
  (∀ v e', f k v = Raise e' → e' = TypeError) →
  pd.series_map (f k) col = Raise e → e = TypeError.
Proof.
  intros Hf. induction col as [|v col IH]; [discriminate|].
  cbn [pd.series_map].
  destruct (f k v) as [b|e'] eqn:Hv; cbn [mbind result_bind].
  - destruct (pd.series_map (f k) col); cbn [mbind result_bind];
      [discriminate|]. intros [= <-]. by apply IH.
  - intros [= <-]. by eapply Hf.
Qed.

Lemma lt_raises (data : DataFrame) (c : string) (k : Qc) (e : exception) :
  pd.lt data c k = Raise e → e = TypeError.
Proof.
  unfold pd.lt. destruct (pd.is_datetime64_any_dtype data c); [congruence|].
  apply (series_map_raises k pd.lt_scalar).
  intros [] e'; cbn; congruence.
Qed.

Lemma gt_raises (data : DataFrame) (c : string) (k : Qc) (e : exception) :
  pd.gt data c k = Raise e → e = TypeError.
Proof.
  unfold pd.gt. destruct (pd.is_datetime64_any_dtype data c); [congruence|].
  apply (series_map_raises k pd.gt_scalar).
  intros [] e'; cbn; congruence.
Qed.

Lemma validate_coordinate_raises (id latitude longitude guard : string)
    (data : DataFrame) :
  pd.has_column data id = true →
  pd.has_column data latitude = true →
  pd.has_column data longitude = true →
  validate_coordinate id latitude longitude guard data = Raise TypeError
  ∨ validate_coordinate id latitude longitude guard data
    = Raise (AttributeError
               "'DataFrameGroupBy' object has no attribute 'unique'").
Proof.
  intros Hid Hlat Hlon. unfold validate_coordinate.
  rewrite Hid, Hlat, Hlon. cbn [negb orb].
  destruct (pd.lt data latitude _) as [south|e] eqn:H1;
    cbn [mbind result_bind];
    [|apply lt_raises in H1 as ->; by left].
  destruct (pd.gt data latitude _) as [north|e] eqn:H2;
    cbn [mbind result_bind];
    [|apply gt_raises in H2 as ->; by left].
  destruct (pd.lt data longitude _) as [west|e] eqn:H3;
    cbn [mbind result_bind];
    [|apply lt_raises in H3 as ->; by left].
  destruct (pd.gt data longitude _) as [east|e] eqn:H4;
    cbn [mbind result_bind];
    [|apply gt_raises in H4 as ->; by left].
  by right.
Qed.

(** C9, on the code: with its three columns present,
    [validate_restaurant_coordinate] never returns a dictionary, whatever
    the coordinates of a restaurant are: the consistency check asks a
    grouped frame for [unique], which it does not have, and the call
    raises (or a comparison has raised before it). *)
Theorem validate_restaurant_coordinate_never_returns (data : DataFrame) :
  pd.has_column data "restaurant_id" = true →
  pd.has_column data "restaurant_latitude" = true →
  pd.has_column data "restaurant_longitude" = true →
  (∀ discrepancies, validate_restaurant_coordinate data ≠ Ok discrepancies)
  ∧ (validate_restaurant_coordinate data = Raise TypeError
     ∨ validate_restaurant_coordinate data
       = Raise (AttributeError
                  "'DataFrameGroupBy' object has no attribute 'unique'")).
Proof.
  intros Hid Hlat Hlon.
  pose proof (validate_coordinate_raises "restaurant_id"
    "restaurant_latitude" "restaurant_longitude"
    "The DataFrame must contain 'restaurant_id', 'restaurant_latitude', and 'restaurant_longitude' columns."
    data Hid Hlat Hlon) as H.
  fold validate_restaurant_coordinate in H.
  split; [|done]. intros d Hd. rewrite Hd in H.
  destruct H as [H|H]; discriminate H.
Qed.

Lemma validate_restaurant_coordinate_never_returns_witness :
  let restaurant (i lat lon : Z) : row :=
    <["restaurant_id" := int i]>
      (<["restaurant_latitude" := int lat]>
         {["restaurant_longitude" := int lon]}) in
  let data :=
    mkDataFrame
      ["restaurant_id"; "restaurant_latitude"; "restaurant_longitude"]
      [ restaurant 1%Z 10%Z 20%Z; restaurant 1%Z 11%Z 20%Z ] in
  validate_restaurant_coordinate data
  = Raise (AttributeError
             "'DataFrameGroupBy' object has no attribute 'unique'").
Proof.
  intros restaurant data.
  destruct (validate_restaurant_coordinate_never_returns data
              eq_refl eq_refl eq_refl) as [_ [H|H]].
  - exfalso. revert H. vm_compute. discriminate.
  - exact H.
Defined.

(** ** [validate_order_date] *)

Section order_date_properties.
Variable to_datetime
  : option dtype → list value → result (bool * list (option Z)).
Variable now : Z.

(** The frame the call leaves behind: once the guard has passed and the
    parser has answered, the column has been assigned, whatever the call
    returns; when the parser raises, the frame is as it was. *)
Lemma validate_order_date_frame (data : DataFrame) (tz : bool)
    (parsed : list (option Z)) :
  pd.has_column data "order_date" = true →
  to_datetime (dtypes data !! "order_date") (pd.column data "order_date")
  = Ok (tz, parsed) →
  (validate_order_date to_datetime now data).2
  = pd.set_column data "order_date" tz (pd.coerce parsed).
Proof.
  intros Hcol Hread. unfold validate_order_date.
  rewrite Hcol, Hread. cbn [negb].
  by destruct (pd.gt_timestamp _ _ _).
Qed.

Lemma validate_order_date_raises (data : DataFrame) (e : exception) :
  pd.has_column data "order_date" = true →
  to_datetime (dtypes data !! "order_date") (pd.column data "order_date")
  = Raise e →
  validate_order_date to_datetime now data = (Raise e, data).
Proof.
  intros Hcol Hread. unfold validate_order_date.
  by rewrite Hcol, Hread.
Qed.

Lemma coerce_not_string (parsed : list (option Z)) (i : nat) (s : string) :
  default NA (pd.coerce parsed !! i) ≠ Str s.
Proof.
  unfold pd.coerce. rewrite list_lookup_fmap.
  by destruct (parsed !! i) as [[t|]|].
Qed.

(** C1, on the code: [validate_order_date] changes the frame it is
    given.  Whenever the [order_date] column holds a string and the
    parser answers, the call leaves a frame in which that cell is an
    instant or missing, while the claim asks for every cell to be as
    before.  Only when the parser raises is the frame left as it was;
    the error then leaves the validator. *)
Theorem validate_order_date_mutates (data : DataFrame) :
  pd.has_column data "order_date" = true →
  (∃ r s, r ∈ rows data ∧ r !! "order_date" = Some (Str s)) →
  match to_datetime (dtypes data !! "order_date")
          (pd.column data "order_date") with
  | Ok _ => (validate_order_date to_datetime now data).2 ≠ data
  | Raise e => validate_order_date to_datetime now data = (Raise e, data)
  end.
Proof.
  intros Hcol (r & s & Hr & Hs).
  destruct (to_datetime _ _) as [[tz parsed]|e] eqn:Hread;
    [|by apply validate_order_date_raises].
  intros Heq.
  rewrite (validate_order_date_frame data tz parsed) in Heq by done.
  apply (f_equal rows) in Heq. cbn [rows pd.set_column] in Heq.
  apply list_elem_of_lookup in Hr as [i Hi].
  apply (f_equal (λ l, l !! i)) in Heq.
  rewrite list_lookup_imap, Hi in Heq. cbn in Heq.
  injection Heq as Heq.
  apply (f_equal (λ m : row, m !! "order_date")) in Heq.
  rewrite lookup_insert_eq, Hs in Heq. injection Heq as Heq.
  by eapply coerce_not_string.
Qed.

End order_date_properties.

Lemma validate_order_date_mutates_witness :
  let data :=
    mkDataFrame ["order_date"] [ {["order_date" := Str "2024-01-15"]} ] in
  (validate_order_date sample_to_datetime 0%Z data).2 ≠ data
  ∧ (validate_order_date sample_to_datetime 0%Z data).2
    = DataFrame_of ["order_date"]
        [ {["order_date" := Timestamp 1705276800000000000%Z]} ]
        {["order_date" := datetime64 false]}.
Proof.
  intros data. split.
  - apply (validate_order_date_mutates sample_to_datetime 0%Z data eq_refl).
    exists {["order_date" := Str "2024-01-15"]}, "2024-01-15".
    split; [left | reflexivity].
  - vm_compute. reflexivity.
Defined.

(** C8, on the code: a second call of [validate_order_date] does not
    repeat the first.  On a frame whose only date is a string the reader
    rejects, the first call reports an invalid date and leaves the cell
    missing; the second call, on the frame as the first left it, reports
    a missing date as well.  The two messages differ however Python
    formats the objects they carry, and whatever the clock says. *)
Theorem validate_order_date_not_repeatable
    (to_datetime
       : option dtype → list value → result (bool * list (option Z)))
    (now now' : Z) :
  to_datetime None [Str "not a date"] = Ok (false, [None]) →
  to_datetime (Some (datetime64 false)) [NA] = Ok (false, [None]) →
  let data :=
    mkDataFrame ["order_date"] [ {["order_date" := Str "not a date"]} ] in
  let first := validate_order_date to_datetime now data in
  let second := validate_order_date to_datetime now' first.2 in
  first.1
  = Ok [Lit "Discrepancies found in order dates:"; Lit nl;
        Lit "invalid_dates"; Lit ": "; Lit "Invalid order dates found: ";
        Fmt (PyList [PyVal NA]); Lit nl]
  ∧ second.1
    = Ok [Lit "Discrepancies found in order dates:"; Lit nl;
          Lit "missing_dates"; Lit ": "; Lit "Missing order dates found: ";
          Fmt (PyInt 1); Lit nl;
          Lit "invalid_dates"; Lit ": "; Lit "Invalid order dates found: ";
          Fmt (PyList [PyVal NA]); Lit nl]
  ∧ first.1 ≠ second.1
  ∧ ∀ format : py → string,
      render format <$> first.1 ≠ render format <$> second.1.
Proof.
  intros Hstring Hmissing data first second.
  assert (Hfirst : first
    = (Ok [Lit "Discrepancies found in order dates:"; Lit nl;
           Lit "invalid_dates"; Lit ": "; Lit "Invalid order dates found: ";
           Fmt (PyList [PyVal NA]); Lit nl],
       DataFrame_of ["order_date"] [ {["order_date" := NA]} ]
         {["order_date" := datetime64 false]})).
  { subst first. unfold validate_order_date. cbv zeta.
    change (to_datetime (dtypes data !! "order_date")
              (pd.column data "order_date"))
      with (to_datetime None [Str "not a date"]).
    rewrite Hstring. vm_compute. reflexivity. }
  assert (Hsecond : second.1
    = Ok [Lit "Discrepancies found in order dates:"; Lit nl;
          Lit "missing_dates"; Lit ": "; Lit "Missing order dates found: ";
          Fmt (PyInt 1); Lit nl;
          Lit "invalid_dates"; Lit ": "; Lit "Invalid order dates found: ";
          Fmt (PyList [PyVal NA]); Lit nl]).
  { subst second. rewrite Hfirst. cbn [snd].
    unfold validate_order_date. cbv zeta.
    match goal with
    | |- context [to_datetime ?d ?c] =>
        change (to_datetime d c) with (to_datetime (Some (datetime64 false)) [NA])
    end.
    rewrite Hmissing. vm_compute. reflexivity. }
  rewrite Hfirst, Hsecond. cbn [fst].
  split; [done|]. split; [done|]. split; [discriminate|].
  intros format Heq.
  apply (f_equal (λ r, match r with
                       | Ok s => String.get 36 s
                       | Raise _ => None
                       end)) in Heq.
  vm_compute in Heq. discriminate Heq.
Qed.

Lemma validate_order_date_not_repeatable_witness :
  let data :=
    mkDataFrame ["order_date"] [ {["order_date" := Str "not a date"]} ] in
  let first := validate_order_date sample_to_datetime 0%Z data in
  let second := validate_order_date sample_to_datetime 0%Z first.2 in
  first.1 ≠ second.1.
Proof.
  intros data first second.
  apply (validate_order_date_not_repeatable sample_to_datetime 0%Z 0%Z
           eq_refl eq_refl).
Defined.

(** ** The guards *)

Lemma has_column_false (data : DataFrame) (c : string) :
  c ∉ columns data → pd.has_column data c = false.
Proof. intros H. by apply bool_decide_eq_false. Qed.

Section guards.
Variable to_datetime
  : option dtype → list value → result (bool * list (option Z)).
Variable now : Z.
Variable strptime : string → option Z.

Lemma guard_raises (v : validator) (data : DataFrame) :
  (∃ c, c ∈ required_columns v ∧ c ∉ columns data) →
  call to_datetime now strptime v data
  = (Raise (ValueError (guard_message v)), data).
Proof.
  intros (c & Hc & Hnot). apply has_column_false in Hnot.
  destruct v; cbn [required_columns] in Hc;
    repeat (apply elem_of_cons in Hc as [->|Hc]);
    try (by apply elem_of_nil in Hc);
    cbn [call guard_message];
    unfold validate_delivery_person_id, validate_id,
      validate_delivery_person_age, validate_delivery_time,
      validate_delivery_person_rating, validate_restaurant_coordinate,
      validate_delivery_location_coordinate, validate_coordinate,
      validate_order_date, validate_order_time,
      validate_weather_condition, validate_road_traffic_density,
      validate_vehicle_condition, validate_type_of_order,
      validate_type_of_vehicle, validate_festival, validate_city,
      validate_domain;
    rewrite Hnot; cbn [negb orb]; rewrite ?orb_true_r; reflexivity.
Qed.

(** C4, as the code has it: a validator that lacks one of its columns
    raises a [ValueError] whose text names, in quotes, every column the
    validator asks for; the error does not depend on the rows; and the
    failed call leaves the frame as it was, so that any validator called
    next behaves exactly as it would have on its own. *)
Theorem guard_fails_fast (v : validator) (data : DataFrame) :
  (∃ c, c ∈ required_columns v ∧ c ∉ columns data) →
  call to_datetime now strptime v data
  = (Raise (ValueError (guard_message v)), data)
  ∧ (∀ c, c ∈ required_columns v →
          contains (quoted c) (guard_message v) = true)
  ∧ (∀ rs, (call to_datetime now strptime v
              (mkDataFrame (columns data) rs)).1
           = Raise (ValueError (guard_message v)))
  ∧ (∀ w, call to_datetime now strptime w
            (call to_datetime now strptime v data).2
          = call to_datetime now strptime w data).
Proof.
  intros Hmissing. split; [by apply guard_raises|]. split; [|split].
  - intros c Hc.
    destruct v; cbn [required_columns] in Hc;
      repeat (apply elem_of_cons in Hc as [->|Hc]);
      try (by apply elem_of_nil in Hc); vm_compute; reflexivity.
  - intros rs. rewrite guard_raises; [done|exact Hmissing].
  - intros w. rewrite (guard_raises v data Hmissing). reflexivity.
Qed.

End guards.

Lemma guard_fails_fast_witness :
  let data :=
    mkDataFrame ["id"; "delivery_time"]
      [ <["id" := int 7]> {["delivery_time" := int 35]} ] in
  call sample_to_datetime 0%Z sample_strptime id_validator data
  = (Raise (ValueError
       "The DataFrame must contain 'id' and 'delivery_person_id' columns."),
     data)
  ∧ call sample_to_datetime 0%Z sample_strptime delivery_time_validator
      (call sample_to_datetime 0%Z sample_strptime id_validator data).2
    = (Ok (Messages []), data).
Proof.
  intros data.
  assert (Hmissing : ∃ c, c ∈ required_columns id_validator
                          ∧ c ∉ columns data).
  { exists "delivery_person_id". split; [right; left|].
    intros H. apply elem_of_cons in H as [H|H]; [discriminate H|].
    apply elem_of_cons in H as [H|H]; [discriminate H|].
    by apply elem_of_nil in H. }
  destruct (guard_fails_fast sample_to_datetime 0%Z sample_strptime
              id_validator data Hmissing) as (Hraise & _ & _ & Hnext).
  split; [exact Hraise|].
  rewrite Hnext. vm_compute. reflexivity.
Defined.

(** C4, as stated, fails: the columns of a validator being present does
    not make it return.  On a frame whose [delivery_time] column holds a
    string, [validate_id] fails on its guard and
    [validate_delivery_time], whose only column is present, raises a
    [TypeError] on the comparison. *)
Lemma guard_isolation_counterexample :
  let data :=
    mkDataFrame ["delivery_time"] [ {["delivery_time" := Str "fast"]} ] in
  (∃ c, c ∈ required_columns id_validator ∧ c ∉ columns data)
  ∧ (∀ c, c ∈ required_columns delivery_time_validator → c ∈ columns data)
  ∧ (call sample_to_datetime 0%Z sample_strptime delivery_time_validator
       data).1 = Raise TypeError
  ∧ ¬ (∃ r, (call sample_to_datetime 0%Z sample_strptime
               delivery_time_validator data).1 = Ok r).
Proof.
  intros data. split; [|split; [|split]].
  - exists "id". split; [left|].
    intros H. apply elem_of_cons in H as [H|H]; [discriminate H|].
    by apply elem_of_nil in H.
  - intros c Hc. apply elem_of_cons in Hc as [->|Hc]; [left|].
    by apply elem_of_nil in Hc.
  - vm_compute. reflexivity.
  - intros [r Hr]. revert Hr. vm_compute. discriminate.
Qed.

(** ** Grouping *)

Lemma insert_sorted_perm (a : value) (l : list value) :
  pd.insert_sorted a l ≡ₚ a :: l.
Proof.
  induction l as [|x l IH]; [done|]. cbn [pd.insert_sorted].
  destruct (pd.value_leb a x); [done|].
  rewrite IH. apply Permutation_swap.
Qed.

Lemma sort_perm (l : list value) : pd.sort l ≡ₚ l.
Proof.
  induction l as [|x l IH]; [done|]. unfold pd.sort. cbn [foldr].
  fold (pd.sort l). by rewrite insert_sorted_perm, IH.
Qed.

(** The keys of the groups: the cells of the key column that are not
    missing, each once. *)
Lemma elem_of_group_keys (k : value) (keys : list value) :
  k ∈ pd.group_keys keys ↔ k ≠ NA ∧ k ∈ keys.
Proof.
  unfold pd.group_keys. rewrite sort_perm, elem_of_unique.
  rewrite list_elem_of_filter. unfold pd.notnull.
  destruct k; cbn; split; intros [H1 H2]; split; try done.
Qed.

Lemma NoDup_group_keys (keys : list value) : NoDup (pd.group_keys keys).
Proof.
  unfold pd.group_keys. rewrite sort_perm. apply NoDup_unique.
Qed.

Lemma elem_of_group_of (v k : value) (rs : list row) (key dep : string) :
  v ∈ pd.group_of k rs key dep ↔ ∃ r, r ∈ rs ∧ cell r key = k ∧ cell r dep = v.
Proof.
  unfold pd.group_of. rewrite list_elem_of_fmap. split.
  - intros (r & -> & [Hk Hr]%list_elem_of_filter). eauto.
  - intros (r & Hr & Hk & <-). exists r. split; [done|].
    by apply list_elem_of_filter.
Qed.

(** A series has more than one distinct cell exactly when two of its
    cells differ. *)
Lemma length_unique_gt1 (l : list value) :
  1 < length (pd.unique l) ↔ ∃ a b, a ∈ l ∧ b ∈ l ∧ a ≠ b.
Proof.
  split.
  - intros Hlen. pose proof (NoDup_unique l) as Hnd.
    destruct (pd.unique l) as [|a [|b u]] eqn:Hu;
      cbn [length] in Hlen; try lia.
    exists a, b. rewrite <- !(elem_of_unique _ l), Hu.
    split; [left|]. split; [right; left|].
    apply NoDup_cons in Hnd as [Hnot _]. intros ->. apply Hnot. left.
  - intros (a & b & Ha & Hb & Hne).
    apply elem_of_unique in Ha, Hb.
    destruct (pd.unique l) as [|x [|y u]]; cbn [length]; [| |lia].
    + by apply elem_of_nil in Ha.
    + apply list_elem_of_singleton in Ha, Hb. congruence.
Qed.

(** The loop of a validator over the groups, when every report is
    appended to a list. *)
Lemma foldl_append {A B C} (step : list C → A * B → list C)
    (g : A → B) (P : B → Prop) `{∀ b, Decision (P b)} (f : A → C)
    (keys : list A) (acc : list C) :
  (∀ acc k, step acc (k, g k)
            = if bool_decide (P (g k)) then acc ++ [f k] else acc) →
  foldl step acc ((λ k, (k, g k)) <$> keys)
  = acc ++ (f <$> filter (λ k, P (g k)) keys).
Proof.
  intros Hstep. revert acc.
  induction keys as [|k keys IH]; intros acc.
  - by rewrite app_nil_r.
  - rewrite fmap_cons. cbn [foldl]. rewrite IH, Hstep, filter_cons.
    destruct (decide (P (g k))) as [HP|HP].
    + rewrite bool_decide_eq_true_2 by done.
      by rewrite fmap_cons, <- app_assoc.
    + by rewrite bool_decide_eq_false_2.
Qed.

Lemma dict_set_fresh {K V} `{EqDecision K} (d : dict K V) (k : K) (v : V) :
  k ∉ d.*1 → dict_set d k v = d ++ [(k, v)].
Proof.
  induction d as [|[k' v'] d IH]; intros Hk; [done|].
  cbn [dict_set]. rewrite fmap_cons in Hk. cbn [fst] in Hk.
  apply not_elem_of_cons in Hk as [Hne Hk].
  rewrite decide_False by done. by rewrite IH.
Qed.

(** The same loop when every report is stored under the key of its
    group: the keys being distinct, every store adds an entry. *)
Lemma foldl_dict_set {B} (step : dict value B → value * B → dict value B)
    (g : value → B) (P : B → Prop) `{∀ b, Decision (P b)}
    (keys : list value) (acc : dict value B) :
  (∀ acc k, step acc (k, g k)
            = if bool_decide (P (g k)) then dict_set acc k (g k) else acc) →
  NoDup (acc.*1 ++ keys) →
  foldl step acc ((λ k, (k, g k)) <$> keys)
  = acc ++ ((λ k, (k, g k)) <$> filter (λ k, P (g k)) keys).
Proof.
  intros Hstep. revert acc.
  induction keys as [|k keys IH]; intros acc Hnd.
  - by rewrite app_nil_r.
  - rewrite fmap_cons. cbn [foldl]. rewrite Hstep, filter_cons.
    apply NoDup_app in Hnd as (Hacc & Hdisj & Hkeys).
    apply NoDup_cons in Hkeys as [Hk Hkeys].
    assert (Hfresh : k ∉ acc.*1).
    { intros Hin. apply (Hdisj k Hin). left. }
    destruct (decide (P (g k))) as [HP|HP].
    + rewrite bool_decide_eq_true_2 by done.
      rewrite dict_set_fresh by done. rewrite IH.
      * by rewrite fmap_cons, <- app_assoc.
      * rewrite fmap_app. cbn. rewrite <- app_assoc. cbn.
        apply NoDup_app. split; [done|]. split; [|by constructor].
        intros x Hx Hin. apply elem_of_cons in Hin as [->|Hin]; [done|].
        apply (Hdisj x Hx). by right.
    + rewrite bool_decide_eq_false_2 by done. apply IH.
      apply NoDup_app. split; [done|]. split; [|done].
      intros x Hx Hin. apply (Hdisj x Hx). by right.
Qed.

Lemma groupby_agg {A} (h : list value → A) (data : DataFrame)
    (key dep : string) :
  pd.agg h <$> pd.groupby data key dep
  = if pd.sortable (pd.column data key) then
      Ok ((λ k, (k, h (pd.group_of k (rows data) key dep)))
            <$> pd.group_keys (pd.column data key))
    else Raise TypeError.
Proof.
  unfold pd.agg, pd.groupby.
  destruct (pd.sortable (pd.column data key)); [|done].
  cbn [fmap result_fmap]. by rewrite <- list_fmap_compose.
Qed.

(** Whether the keys can be sorted depends on the cells that occur, not
    on how often or where. *)
Lemma sortable_subseteq (l l' : list value) :
  (∀ v, v ∈ l' → v ∈ l) → pd.sortable l = true → pd.sortable l' = true.
Proof.
  intros Hsub. unfold pd.sortable.
  rewrite !negb_true_iff, !andb_false_iff.
  intros [H|H]; [left|right]; apply not_true_is_false; intros Hex;
    apply not_true_iff_false in H; apply H;
    apply existsb_exists in Hex as (v & Hv & Hf);
    apply existsb_exists; exists v; (split; [|done]);
    apply list_elem_of_In, Hsub, list_elem_of_In, Hv.
Qed.

Lemma sortable_ext (l l' : list value) :
  (∀ v, v ∈ l ↔ v ∈ l') → pd.sortable l = pd.sortable l'.
Proof.
  intros Hsame.
  destruct (pd.sortable l) eqn:Hl, (pd.sortable l') eqn:Hl'; try done.
  - apply (sortable_subseteq l l') in Hl; [congruence|].
    intros v. apply Hsame.
  - apply (sortable_subseteq l' l) in Hl'; [congruence|].
    intros v. apply Hsame.
Qed.

(** ** [validate_delivery_person_age] *)

Lemma validate_delivery_person_age_eq (data : DataFrame) :
  pd.has_column data "delivery_person_id" = true →
  pd.has_column data "delivery_person_age" = true →
  validate_delivery_person_age data
  = if pd.sortable (pd.column data "delivery_person_id") then
      Ok ((λ k, (k, ages_of data k))
            <$> filter (λ k, 1 < length (ages_of data k))
                  (pd.group_keys (pd.column data "delivery_person_id")))
    else Raise TypeError.
Proof.
  intros Hid Hage. unfold validate_delivery_person_age.
  rewrite Hid, Hage. cbn [negb orb].
  rewrite groupby_agg.
  destruct (pd.sortable (pd.column data "delivery_person_id")); [|done].
  cbn [mbind result_bind]. f_equal.
  rewrite (foldl_dict_set _ (ages_of data) (λ ages, 1 < length ages)).
  - done.
  - done.
  - cbn. apply NoDup_group_keys.
Qed.





(** ** [validate_id] *)

Lemma validate_id_eq (data : DataFrame) :
  pd.has_column data "id" = true →
  pd.has_column data "delivery_person_id" = true →
  validate_id data
  = if pd.sortable (pd.column data "id")
       && pd.sortable (pd.column data "delivery_person_id") then
      Ok ((id_message <$> violating data "id" "delivery_person_id")
            ++ (delivery_person_message
                  <$> violating data "delivery_person_id" "id"))
    else Raise TypeError.
Proof.
  intros Hid Hdp. unfold validate_id. rewrite Hid, Hdp. cbn [negb orb].
  rewrite !groupby_agg.
  destruct (pd.sortable (pd.column data "id")); [|done].
  destruct (pd.sortable (pd.column data "delivery_person_id")); [|done].
  cbn [mbind result_bind andb]. f_equal.
  rewrite (foldl_append _
             (λ k, pd.nunique
                     (pd.group_of k (rows data) "id" "delivery_person_id"))
             (λ count, 1 < count) id_message) by done.
  rewrite (foldl_append _
             (λ k, pd.nunique
                     (pd.group_of k (rows data) "delivery_person_id" "id"))
             (λ count, 1 < count) delivery_person_message) by done.
  done.
Qed.

Lemma validate_id_ok (data : DataFrame) :
  pd.has_column data "id" = true →
  pd.has_column data "delivery_person_id" = true →
  pd.sortable (pd.column data "id") = true →
  pd.sortable (pd.column data "delivery_person_id") = true →
  validate_id data
  = Ok ((id_message <$> violating data "id" "delivery_person_id")
          ++ (delivery_person_message
                <$> violating data "delivery_person_id" "id")).
Proof.
  intros Hid Hdp Hs Hs'. by rewrite validate_id_eq, Hs, Hs' by done.
Qed.

Lemma notnull_ne (v : value) : pd.notnull v = true ↔ v ≠ NA.
Proof. destruct v; cbn; split; done. Qed.

Lemma nunique_conflicting (rs : list row) (key dep : string) (k : value) :
  1 < pd.nunique (pd.group_of k rs key dep) ↔ conflicting rs key dep k.
Proof.
  unfold pd.nunique, conflicting. rewrite length_unique_gt1. split.
  - intros (a & b & Ha & Hb & Hne).
    apply list_elem_of_filter in Ha as [Ha%Is_true_true%notnull_ne Hina].
    apply list_elem_of_filter in Hb as [Hb%Is_true_true%notnull_ne Hinb].
    apply elem_of_group_of in Hina as (r1 & Hr1 & Hk1 & <-).
    apply elem_of_group_of in Hinb as (r2 & Hr2 & Hk2 & <-).
    exists r1, r2. done.
  - intros (r1 & r2 & Hr1 & Hr2 & Hk1 & Hk2 & Hn1 & Hn2 & Hne).
    exists (cell r1 dep), (cell r2 dep).
    rewrite !list_elem_of_filter, !elem_of_group_of.
    split; [|split]; [| |done].
    + split; [by apply Is_true_true, notnull_ne|eauto].
    + split; [by apply Is_true_true, notnull_ne|eauto].
Qed.

Lemma elem_of_violating (data : DataFrame) (key dep : string) (k : value) :
  k ∈ violating data key dep ↔ k ≠ NA ∧ conflicting (rows data) key dep k.
Proof.
  unfold violating. rewrite list_elem_of_filter, nunique_conflicting.
  rewrite elem_of_group_keys. split.
  - intros (Hc & Hk & _). done.
  - intros (Hk & Hc). split; [done|]. split; [done|].
    destruct Hc as (r1 & _ & Hr1 & _ & Hk1 & _).
    apply list_elem_of_fmap. eauto.
Qed.

(** What the list returned by [validate_id] holds. *)
Lemma elem_of_validate_id (data : DataFrame) (l : list text) (m : text) :
  pd.has_column data "id" = true →
  pd.has_column data "delivery_person_id" = true →
  validate_id data = Ok l →
  m ∈ l ↔
    (∃ k, m = id_message k ∧ k ≠ NA
          ∧ conflicting (rows data) "id" "delivery_person_id" k)
    ∨ (∃ k, m = delivery_person_message k ∧ k ≠ NA
            ∧ conflicting (rows data) "delivery_person_id" "id" k).
Proof.
  intros Hid Hdp. rewrite validate_id_eq by done.
  destruct (_ && _); [|discriminate]. intros [= <-].
  rewrite elem_of_app, !list_elem_of_fmap.
  split; (intros [(k & -> & Hk)|(k & -> & Hk)]; [left|right]; exists k).
  - by apply elem_of_violating in Hk.
  - by apply elem_of_violating in Hk.
  - split; [done|]. by apply elem_of_violating.
  - split; [done|]. by apply elem_of_violating.
Qed.

Lemma rows_dropna (c : string) (data : DataFrame) :
  rows (dropna c data) = filter (λ r, pd.notnull (cell r c) = true) (rows data).
Proof. unfold dropna. apply select_column. Qed.

Lemma sortable_dropna (c c' : string) (data : DataFrame) :
  pd.sortable (pd.column data c) = true →
  pd.sortable (pd.column (dropna c' data) c) = true.
Proof.
  apply sortable_subseteq. intros v. unfold pd.column.
  rewrite rows_dropna, !list_elem_of_fmap.
  intros (r & -> & [_ Hr]%list_elem_of_filter). eauto.
Qed.

Lemma conflicting_dropna_key (c key dep : string) (data : DataFrame)
    (k : value) :
  (c = key ∧ k ≠ NA) ∨ c = dep →
  conflicting (rows (dropna c data)) key dep k
  ↔ conflicting (rows data) key dep k.
Proof.
  intros Hc. rewrite rows_dropna. unfold conflicting. split.
  - intros (r1 & r2 & [_ Hr1]%list_elem_of_filter
              & [_ Hr2]%list_elem_of_filter & H).
    exists r1, r2. done.
  - intros (r1 & r2 & Hr1 & Hr2 & Hk1 & Hk2 & Hn1 & Hn2 & Hne).
    exists r1, r2. rewrite !list_elem_of_filter.
    destruct Hc as [[-> Hk]| ->].
    + rewrite !notnull_ne, Hk1, Hk2. done.
    + rewrite !notnull_ne. done.
Qed.

(** C3, as the code has it: [nunique] leaves missing cells out of its
    count, so a missing [delivery_person_id] is neither a value of its
    own nor a wildcard.  On a frame whose keys [groupby] can sort,
    [validate_id] reports an [id] exactly when two of its rows carry
    different [delivery_person_id]s that are both present; an [id] whose
    present [delivery_person_id]s all agree is not reported, however
    many of its rows lack one. *)
Theorem validate_id_ignores_missing_delivery_person (data : DataFrame)
    (k : value) :
  pd.has_column data "id" = true →
  pd.has_column data "delivery_person_id" = true →
  pd.sortable (pd.column data "id") = true →
  pd.sortable (pd.column data "delivery_person_id") = true →
  ∃ l, validate_id data = Ok l
       ∧ (id_message k ∈ l ↔
          k ≠ NA ∧ conflicting (rows data) "id" "delivery_person_id" k)
       ∧ ((∀ r1 r2, r1 ∈ rows data → r2 ∈ rows data →
                    cell r1 "id" = k → cell r2 "id" = k →
                    cell r1 "delivery_person_id" ≠ NA →
                    cell r2 "delivery_person_id" ≠ NA →
                    cell r1 "delivery_person_id"
                    = cell r2 "delivery_person_id") →
          id_message k ∉ l).
Proof.
  intros Hid Hdp Hs Hs'. eexists. split; [by apply validate_id_ok|].
  assert (Hiff : id_message k
                   ∈ (id_message <$> violating data "id" "delivery_person_id")
                     ++ (delivery_person_message
                           <$> violating data "delivery_person_id" "id")
                 ↔ k ≠ NA
                   ∧ conflicting (rows data) "id" "delivery_person_id" k).
  { rewrite (elem_of_validate_id data _ _ Hid Hdp
               (validate_id_ok _ Hid Hdp Hs Hs')).
    split.
    - intros [(k' & [= <-] & H)|(k' & [=] & _)]. exact H.
    - intros H. left. by exists k. }
  split; [exact Hiff|].
  intros Hagree Hin. apply Hiff in Hin as [_ Hc].
  destruct Hc as (r1 & r2 & Hr1 & Hr2 & Hk1 & Hk2 & Hn1 & Hn2 & Hne).
  apply Hne. by apply Hagree.
Qed.

Lemma validate_id_ignores_missing_delivery_person_witness :
  let order (i p : value) : row :=
    <["id" := i]> {["delivery_person_id" := p]} in
  let data :=
    mkDataFrame ["id"; "delivery_person_id"]
      [ order (int 1) (Str "A"); order (int 1) NA;
        order (int 2) (Str "B"); order (int 2) (Str "C") ] in
  ∃ l, validate_id data = Ok l
       ∧ id_message (int 2) ∈ l ∧ id_message (int 1) ∉ l.
Proof.
  intros order data.
  destruct (validate_id_ignores_missing_delivery_person data (int 2)
              eq_refl eq_refl eq_refl eq_refl) as (l & Hl & Hiff & _).
  destruct (validate_id_ignores_missing_delivery_person data (int 1)
              eq_refl eq_refl eq_refl eq_refl) as (l' & Hl' & _ & Hnot).
  rewrite Hl in Hl'. injection Hl' as <-.
  exists l. split; [exact Hl|]. split.
  - apply Hiff. split; [done|].
    exists (order (int 2) (Str "B")), (order (int 2) (Str "C")).
    split; [right; right; left|]. split; [right; right; right; left|].
    done.
  - apply Hnot. intros r1 r2 Hr1 Hr2 Hk1 Hk2 Hn1 Hn2.
    repeat (apply elem_of_cons in Hr1 as [->|Hr1]);
      try (by apply elem_of_nil in Hr1);
      repeat (apply elem_of_cons in Hr2 as [->|Hr2]);
      try (by apply elem_of_nil in Hr2);
      vm_compute in Hk1, Hk2, Hn1, Hn2 |- *; congruence.
Defined.

(** C3, as stated, fails on an [id] with one present and one missing
    [delivery_person_id]: nothing is reported. *)
Lemma validate_id_missing_delivery_person_counterexample :
  let data :=
    mkDataFrame ["id"; "delivery_person_id"]
      [ <["id" := int 1]> {["delivery_person_id" := Str "A"]};
        <["id" := int 1]> {["delivery_person_id" := NA]} ] in
  validate_id data = Ok []
  ∧ ¬ (∃ l, validate_id data = Ok l ∧ id_message (int 1) ∈ l).
Proof.
  intros data.
  assert (H : validate_id data = Ok []) by (vm_compute; reflexivity).
  split; [exact H|]. intros (l & Hl & Hin). rewrite H in Hl.
  injection Hl as <-. by apply elem_of_nil in Hin.
Qed.

(** C2, as the code has it: [groupby] drops the rows whose key is
    missing.  The rows with a missing [id] form no group: on a frame
    whose keys [groupby] can sort, [validate_id] never reports a
    discrepancy for a missing [id], and it reports the same
    discrepancies on the frame with those rows removed. *)
Theorem validate_id_drops_missing_id (data : DataFrame) :
  pd.has_column data "id" = true →
  pd.has_column data "delivery_person_id" = true →
  pd.sortable (pd.column data "id") = true →
  pd.sortable (pd.column data "delivery_person_id") = true →
  ∃ l l', validate_id data = Ok l
          ∧ validate_id (dropna "id" data) = Ok l'
          ∧ (id_message NA ∉ l)
          ∧ (∀ m, m ∈ l ↔ m ∈ l').
Proof.
  intros Hid Hdp Hs Hs'.
  exists ((id_message <$> violating data "id" "delivery_person_id")
          ++ (delivery_person_message
                <$> violating data "delivery_person_id" "id")).
  pose proof (validate_id_ok _ Hid Hdp Hs Hs') as Hl.
  pose proof (validate_id_ok (dropna "id" data) Hid Hdp
                (sortable_dropna _ _ _ Hs) (sortable_dropna _ _ _ Hs'))
    as Hl'.
  eexists. split; [exact Hl|]. split; [exact Hl'|].
  split.
  - rewrite (elem_of_validate_id data _ _ Hid Hdp Hl).
    intros [(k & [= <-] & Hk & _)|(k & [=] & _)]. done.
  - intros m.
    rewrite (elem_of_validate_id data _ _ Hid Hdp Hl).
    rewrite (elem_of_validate_id (dropna "id" data) _ _ Hid Hdp Hl').
    split; (intros [(k & -> & Hk & Hc)|(k & -> & Hk & Hc)];
            [left|right]; exists k; (split; [done|]); (split; [done|])).
    + apply conflicting_dropna_key; [by left|done].
    + apply conflicting_dropna_key; [by right|done].
    + apply conflicting_dropna_key in Hc; [done|by left].
    + apply conflicting_dropna_key in Hc; [done|by right].
Qed.

Lemma validate_id_drops_missing_id_witness :
  let order (i p : value) : row :=
    <["id" := i]> {["delivery_person_id" := p]} in
  let data :=
    mkDataFrame ["id"; "delivery_person_id"]
      [ order NA (Str "A"); order (int 3) (Str "C"); order NA (Str "B");
        order (int 3) (Str "D") ] in
  ∃ l, validate_id data = Ok l
       ∧ (id_message NA ∉ l)
       ∧ (∀ m, m ∈ l ↔ m ∈ [id_message (int 3)]).
Proof.
  intros order data.
  destruct (validate_id_drops_missing_id data eq_refl eq_refl eq_refl
              eq_refl)
    as (l & l' & Hl & Hl' & Hnot & Hsame).
  exists l. split; [exact Hl|]. split; [exact Hnot|].
  assert (Hl3 : l' = [id_message (int 3)]).
  { vm_compute in Hl'. injection Hl' as <-. reflexivity. }
  intros m. rewrite Hsame, Hl3. reflexivity.
Defined.

(** C2, as stated, fails on two rows whose [id] is missing and whose
    [delivery_person_id]s differ: nothing is reported. *)
Lemma validate_id_missing_id_counterexample :
  let data :=
    mkDataFrame ["id"; "delivery_person_id"]
      [ <["id" := NA]> {["delivery_person_id" := Str "A"]};
        <["id" := NA]> {["delivery_person_id" := Str "B"]} ] in
  validate_id data = Ok []
  ∧ ¬ (∃ l m, validate_id data = Ok l ∧ m ∈ l).
Proof.
  intros data.
  assert (H : validate_id data = Ok []) by (vm_compute; reflexivity).
  split; [exact H|]. intros (l & m & Hl & Hin). rewrite H in Hl.
  injection Hl as <-. by apply elem_of_nil in Hin.
Qed.

(** * Further properties of the validators *)

(** ** The order of the groups *)

Lemma string_leb_trans (s1 s2 s3 : string) :
  String.leb s1 s2 = true → String.leb s2 s3 = true →
  String.leb s1 s3 = true.
Proof.
  unfold String.leb. intros H12 H23.
  destruct (String.compare s1 s2) eqn:E12; [| |discriminate H12].
  - apply OrderedTypeEx.String_as_OT.cmp_eq in E12 as ->. exact H23.
  - destruct (String.compare s2 s3) eqn:E23; [| |discriminate H23].
    + apply OrderedTypeEx.String_as_OT.cmp_eq in E23 as <-.
      by rewrite E12.
    + apply OrderedTypeEx.String_as_OT.cmp_lt in E12, E23.
      pose proof (OrderedTypeEx.String_as_OT.lt_trans _ _ _ E12 E23) as H.
      apply OrderedTypeEx.String_as_OT.cmp_lt in H.
      unfold OrderedTypeEx.String_as_OT.cmp in H. by rewrite H.
Qed.

Global Instance value_le_trans : Transitive value_le.
Proof.
  unfold value_le.
  intros [|s1|q1|t1] [|s2|q2|t2] [|s3|q3|t3]; cbn; try done.
  - apply string_leb_trans.
  - rewrite !bool_decide_eq_true. apply Qcle_trans.
  - rewrite !bool_decide_eq_true. apply Z.le_trans.
Qed.

Global Instance value_le_antisym : AntiSymm (=) value_le.
Proof.
  unfold value_le.
  intros [|s1|q1|t1] [|s2|q2|t2]; cbn; try done.
  - intros H1 H2. f_equal. by apply String.leb_antisym.
  - rewrite !bool_decide_eq_true. intros H1 H2. f_equal.
    by apply Qcle_antisym.
  - rewrite !bool_decide_eq_true. intros H1 H2. f_equal. lia.
Qed.

Lemma value_leb_total (a b : value) :
  pd.value_leb a b = false → pd.value_leb b a = true.
Proof.
  destruct a as [|s1|q1|t1], b as [|s2|q2|t2]; cbn; try done.
  - intros H. destruct (String.leb_total s1 s2) as [H'|H']; congruence.
  - rewrite bool_decide_eq_false, bool_decide_eq_true.
    intros H. apply Qclt_le_weak, Qcnot_le_lt, H.
  - rewrite bool_decide_eq_false, bool_decide_eq_true. lia.
Qed.

Lemma insert_sorted_Sorted (a : value) (l : list value) :
  Sorted value_le l → Sorted value_le (pd.insert_sorted a l).
Proof.
  induction l as [|x l IH]; intros Hs; cbn [pd.insert_sorted].
  - by repeat constructor.
  - destruct (pd.value_leb a x) eqn:Hax.
    + constructor; [done|]. by constructor.
    + apply Sorted_inv in Hs as [Hs Hhd].
      constructor; [by apply IH|].
      apply value_leb_total in Hax.
      destruct l as [|y l]; cbn [pd.insert_sorted]; [by constructor|].
      destruct (pd.value_leb a y); constructor; try done.
      by apply HdRel_inv in Hhd.
Qed.

Lemma sort_Sorted (l : list value) : Sorted value_le (pd.sort l).
Proof.
  induction l as [|x l IH]; [constructor|].
  unfold pd.sort. cbn [foldr]. by apply insert_sorted_Sorted.
Qed.

Lemma Sorted_filter (P : value → Prop) `{∀ x, Decision (P x)}
    (l : list value) :
  Sorted value_le l → Sorted value_le (filter P l).
Proof.
  intros Hs. apply Sorted_StronglySorted in Hs; [|apply _].
  apply StronglySorted_Sorted.
  induction Hs as [|x l Hs IH Hall]; [constructor|].
  rewrite filter_cons. destruct (decide (P x)); [|done].
  constructor; [done|].
  apply Forall_forall. intros y [_ Hy]%list_elem_of_filter.
  by eapply Forall_forall in Hall.
Qed.

(** The keys a pass reports come in the order of [groupby], each once. *)
Lemma violating_Sorted (data : DataFrame) (key dep : string) :
  Sorted value_le (violating data key dep).
Proof. unfold violating. apply Sorted_filter, sort_Sorted. Qed.

Lemma violating_NoDup (data : DataFrame) (key dep : string) :
  NoDup (violating data key dep).
Proof. unfold violating. apply NoDup_filter, NoDup_group_keys. Qed.

(** Two frames with the same conflicts have the same reported keys, in
    the same order. *)
Lemma violating_ext (data data' : DataFrame) (key dep : string) :
  (∀ k, k ≠ NA →
        conflicting (rows data) key dep k
        ↔ conflicting (rows data') key dep k) →
  violating data key dep = violating data' key dep.
Proof.
  intros Hsame. apply (Sorted_unique value_le);
    [apply violating_Sorted | apply violating_Sorted |].
  apply NoDup_Permutation; [apply violating_NoDup | apply violating_NoDup |].
  intros k. rewrite !elem_of_violating.
  split; intros [Hk Hc]; (split; [done|]); by apply (Hsame k Hk).
Qed.

(** ** [validate_id] and [validate_delivery_person_id], the whole report *)

Lemma violating_nil (data : DataFrame) (key dep : string) :
  violating data key dep = []
  ↔ ∀ k, k ≠ NA → ¬ conflicting (rows data) key dep k.
Proof.
  split.
  - intros Hnil k Hk Hc.
    assert (Hin : k ∈ violating data key dep) by by apply elem_of_violating.
    rewrite Hnil in Hin. by apply elem_of_nil in Hin.
  - intros Hnone. destruct (violating data key dep) as [|k l] eqn:Hv; [done|].
    assert (Hin : k ∈ violating data key dep) by (rewrite Hv; left).
    apply elem_of_violating in Hin as [Hk Hc]. by destruct (Hnone k Hk).
Qed.

Lemma validate_id_nil (data : DataFrame) :
  pd.has_column data "id" = true →
  pd.has_column data "delivery_person_id" = true →
  pd.sortable (pd.column data "id") = true →
  pd.sortable (pd.column data "delivery_person_id") = true →
  validate_id data = Ok []
  ↔ ∀ k, k ≠ NA →
         ¬ conflicting (rows data) "id" "delivery_person_id" k
         ∧ ¬ conflicting (rows data) "delivery_person_id" "id" k.
Proof.
  intros Hid Hdp Hs Hs'. rewrite validate_id_ok by done. split.
  - intros [= Heq]. apply app_eq_nil in Heq as [H1 H2].
    apply fmap_nil_inv in H1, H2. intros k Hk.
    split; by eapply violating_nil.
  - intros Hnone. f_equal.
    rewrite (proj2 (violating_nil data "id" "delivery_person_id")),
            (proj2 (violating_nil data "delivery_person_id" "id")); [done| |].
    + intros k Hk. by apply Hnone.
    + intros k Hk. by apply Hnone.
Qed.

(** The layout of the list [validate_id] returns on a frame whose keys
    [groupby] can sort: first one message per [id] with two different
    (present) [delivery_person_id]s, then one message per
    [delivery_person_id] with two different (present) [id]s; within each
    part the keys come in increasing order, each once. *)
Theorem validate_id_report_layout (data : DataFrame) :
  pd.has_column data "id" = true →
  pd.has_column data "delivery_person_id" = true →
  pd.sortable (pd.column data "id") = true →
  pd.sortable (pd.column data "delivery_person_id") = true →
  ∃ ids persons,
    validate_id data
    = Ok ((id_message <$> ids) ++ (delivery_person_message <$> persons))
    ∧ Sorted value_le ids ∧ NoDup ids
    ∧ Sorted value_le persons ∧ NoDup persons
    ∧ (∀ k, k ∈ ids ↔
            k ≠ NA ∧ conflicting (rows data) "id" "delivery_person_id" k)
    ∧ (∀ k, k ∈ persons ↔
            k ≠ NA ∧ conflicting (rows data) "delivery_person_id" "id" k).
Proof.
  intros Hid Hdp Hs Hs'.
  exists (violating data "id" "delivery_person_id"),
         (violating data "delivery_person_id" "id").
  split; [by apply validate_id_ok|].
  split; [apply violating_Sorted|]. split; [apply violating_NoDup|].
  split; [apply violating_Sorted|]. split; [apply violating_NoDup|].
  split; intros k; apply elem_of_violating.
Qed.

Lemma validate_id_report_layout_witness :
  let order (i p : value) : row :=
    <["id" := i]> {["delivery_person_id" := p]} in
  let data :=
    mkDataFrame ["id"; "delivery_person_id"]
      [ order (Str "o2") (Str "P1"); order (Str "o1") (Str "P1");
        order (Str "o2") (Str "P2") ] in
  validate_id data
  = Ok [id_message (Str "o2"); delivery_person_message (Str "P1")].
Proof.
  intros order data.
  destruct (validate_id_report_layout data eq_refl eq_refl eq_refl eq_refl)
    as (ids & persons & Heq & _).
  rewrite Heq. revert Heq. vm_compute. intros [= Heq]. by rewrite Heq.
Defined.

(** On a frame whose keys [groupby] can sort, [validate_id] returns the
    empty list exactly when the two columns determine each other on the
    rows where both are present: no two rows share an [id] with
    different [delivery_person_id]s, nor a [delivery_person_id] with
    different [id]s. *)
Theorem validate_id_clean_iff (data : DataFrame) :
  pd.has_column data "id" = true →
  pd.has_column data "delivery_person_id" = true →
  pd.sortable (pd.column data "id") = true →
  pd.sortable (pd.column data "delivery_person_id") = true →
  validate_id data = Ok []
  ↔ ∀ r1 r2, r1 ∈ rows data → r2 ∈ rows data →
             cell r1 "id" ≠ NA → cell r2 "id" ≠ NA →
             cell r1 "delivery_person_id" ≠ NA →
             cell r2 "delivery_person_id" ≠ NA →
             (cell r1 "id" = cell r2 "id"
              ↔ cell r1 "delivery_person_id" = cell r2 "delivery_person_id").
Proof.
  intros Hid Hdp Hs Hs'. rewrite validate_id_nil by done. split.
  - intros Hnone r1 r2 Hr1 Hr2 Hi1 Hi2 Hp1 Hp2. split; intros Heq.
    + destruct (decide (cell r1 "delivery_person_id"
                        = cell r2 "delivery_person_id")) as [|Hne]; [done|].
      destruct (Hnone (cell r1 "id") Hi1) as [H _]. destruct H.
      exists r1, r2. done.
    + destruct (decide (cell r1 "id" = cell r2 "id")) as [|Hne]; [done|].
      destruct (Hnone (cell r1 "delivery_person_id") Hp1) as [_ H].
      destruct H. exists r1, r2. done.
  - intros Hfun k Hk. split.
    + intros (r1 & r2 & Hr1 & Hr2 & Hk1 & Hk2 & Hn1 & Hn2 & Hne).
      apply Hne, (Hfun r1 r2); try done; congruence.
    + intros (r1 & r2 & Hr1 & Hr2 & Hk1 & Hk2 & Hn1 & Hn2 & Hne).
      apply Hne, (Hfun r1 r2); try done; congruence.
Qed.

Lemma validate_id_clean_iff_witness :
  let order (i p : value) : row :=
    <["id" := i]> {["delivery_person_id" := p]} in
  let data :=
    mkDataFrame ["id"; "delivery_person_id"]
      [ order (Str "o1") (Str "P1"); order (Str "o2") (Str "P2");
        order NA (Str "P1"); order (Str "o2") NA ] in
  validate_id data = Ok [].
Proof.
  intros order data.
  apply (validate_id_clean_iff data eq_refl eq_refl eq_refl eq_refl).
  intros r1 r2 Hr1 Hr2.
  repeat (apply elem_of_cons in Hr1 as [->|Hr1]);
    try (by apply elem_of_nil in Hr1);
    repeat (apply elem_of_cons in Hr2 as [->|Hr2]);
    try (by apply elem_of_nil in Hr2);
    vm_compute; intros; split; congruence.
Defined.

(** What [validate_id] returns or raises does not depend on the order
    of the rows. *)
Theorem validate_id_row_order (data data' : DataFrame) :
  columns data = columns data' →
  rows data ≡ₚ rows data' →
  validate_id data = validate_id data'.
Proof.
  intros Hcols Hperm.
  destruct (pd.has_column data "id" && pd.has_column data "delivery_person_id")
    eqn:Hhas.
  - apply andb_true_iff in Hhas as [Hid Hdp].
    assert (Hid' : pd.has_column data' "id" = true)
      by (unfold pd.has_column in *; by rewrite <- Hcols).
    assert (Hdp' : pd.has_column data' "delivery_person_id" = true)
      by (unfold pd.has_column in *; by rewrite <- Hcols).
    rewrite !validate_id_eq by done.
    assert (Hcol : ∀ c v, v ∈ pd.column data c ↔ v ∈ pd.column data' c).
    { intros c v. unfold pd.column. by rewrite Hperm. }
    rewrite (sortable_ext _ _ (Hcol "id")),
      (sortable_ext _ _ (Hcol "delivery_person_id")).
    rewrite (violating_ext data data' "id" "delivery_person_id"),
            (violating_ext data data' "delivery_person_id" "id"); [done| |].
    + intros k _. unfold conflicting. by setoid_rewrite Hperm.
    + intros k _. unfold conflicting. by setoid_rewrite Hperm.
  - unfold validate_id. unfold pd.has_column in *. rewrite <- Hcols.
    apply andb_false_iff in Hhas as [-> | ->]; cbn [negb orb];
      by rewrite ?orb_true_r.
Qed.

Lemma validate_id_row_order_witness :
  let order (i p : value) : row :=
    <["id" := i]> {["delivery_person_id" := p]} in
  let r1 := order (Str "o2") (Str "P1") in
  let r2 := order (Str "o1") (Str "P1") in
  let r3 := order (Str "o2") (Str "P2") in
  validate_id (mkDataFrame ["id"; "delivery_person_id"] [r1; r2; r3])
  = validate_id (mkDataFrame ["id"; "delivery_person_id"] [r3; r1; r2]).
Proof.
  intros order r1 r2 r3.
  apply validate_id_row_order; [reflexivity|]. cbn [rows].
  change [r3; r1; r2] with ([r3] ++ [r1; r2]).
  change [r1; r2; r3] with ([r1; r2] ++ [r3]).
  apply Permutation_app_comm.
Defined.

(** Rows in which [id] or [delivery_person_id] is missing do not count:
    on a frame whose keys [groupby] can sort, [validate_id] returns the
    very same list on the frame from which the rows with a missing cell
    in one of the two columns are removed. *)
Theorem validate_id_dropna (data : DataFrame) (c : string) :
  c = "id" ∨ c = "delivery_person_id" →
  pd.sortable (pd.column data "id") = true →
  pd.sortable (pd.column data "delivery_person_id") = true →
  validate_id (dropna c data) = validate_id data.
Proof.
  intros Hc Hs Hs'. unfold validate_id at 1 2.
  change (pd.has_column (dropna c data)) with (pd.has_column data).
  destruct (pd.has_column data "id") eqn:Hid; [|done].
  destruct (pd.has_column data "delivery_person_id") eqn:Hdp; [|done].
  pose proof (validate_id_ok data Hid Hdp Hs Hs') as H.
  pose proof (validate_id_ok (dropna c data) Hid Hdp
                (sortable_dropna _ _ _ Hs) (sortable_dropna _ _ _ Hs')) as H'.
  unfold validate_id in H, H'.
  change (pd.has_column (dropna c data)) with (pd.has_column data) in H'.
  rewrite Hid, Hdp in H, H'. cbn [negb orb] in H, H' |- *.
  rewrite H, H'.
  rewrite (violating_ext (dropna c data) data "id" "delivery_person_id"),
    (violating_ext (dropna c data) data "delivery_person_id" "id");
    [done| |].
  - intros k Hk. apply conflicting_dropna_key.
    destruct Hc as [-> | ->]; [by right | by left].
  - intros k Hk. apply conflicting_dropna_key.
    destruct Hc as [-> | ->]; [by left | by right].
Qed.

Lemma validate_id_dropna_witness :
  let order (i p : value) : row :=
    <["id" := i]> {["delivery_person_id" := p]} in
  let data :=
    mkDataFrame ["id"; "delivery_person_id"]
      [ order NA (Str "P1"); order (Str "o1") (Str "P1");
        order (Str "o1") (Str "P2"); order NA (Str "P3") ] in
  validate_id
    (mkDataFrame ["id"; "delivery_person_id"]
       [ order (Str "o1") (Str "P1"); order (Str "o1") (Str "P2") ])
  = validate_id data.
Proof.
  intros order data.
  rewrite <- (validate_id_dropna data "id") by (by left || reflexivity).
  vm_compute. reflexivity.
Defined.

(** On a frame whose keys [groupby] can sort,
    [validate_delivery_person_id] never returns an empty list: it
    returns the single message of success exactly when [validate_id]
    finds nothing, and otherwise a heading followed by the messages of
    [validate_id]. *)
Theorem validate_delivery_person_id_result (data : DataFrame) :
  pd.has_column data "id" = true →
  pd.has_column data "delivery_person_id" = true →
  pd.sortable (pd.column data "id") = true →
  pd.sortable (pd.column data "delivery_person_id") = true →
  ∃ issues l,
    validate_id data = Ok issues
    ∧ validate_delivery_person_id data = Ok l
    ∧ l ≠ []
    ∧ (issues = [] →
       l = [[Lit "Validation passed: All IDs and delivery_person_ids are consistent."]])
    ∧ (issues ≠ [] →
       l = [Lit "Validation failed. Issues found:"] :: issues)
    ∧ (l = [[Lit "Validation passed: All IDs and delivery_person_ids are consistent."]]
       ↔ ∀ k, k ≠ NA →
              ¬ conflicting (rows data) "id" "delivery_person_id" k
              ∧ ¬ conflicting (rows data) "delivery_person_id" "id" k).
Proof.
  intros Hid Hdp Hs Hs'.
  pose proof (validate_id_nil data Hid Hdp Hs Hs') as Hnil.
  pose proof (validate_id_ok data Hid Hdp Hs Hs') as Heq.
  unfold validate_delivery_person_id.
  destruct (validate_id data) as [issues|e]; [|discriminate Heq].
  cbn [mbind result_bind]. exists issues.
  destruct issues as [|m issues]; cbn.
  - eexists. split; [done|]. split; [done|]. split; [done|].
    split; [done|]. split; [done|]. split; [intros _|done].
    by apply Hnil.
  - eexists. split; [done|]. split; [done|]. split; [done|].
    split; [done|]. split; [done|]. split; [discriminate|].
    intros H. apply Hnil in H. discriminate H.
Qed.

Lemma validate_delivery_person_id_result_witness :
  let order (i p : value) : row :=
    <["id" := i]> {["delivery_person_id" := p]} in
  let data :=
    mkDataFrame ["id"; "delivery_person_id"]
      [ order (Str "o1") (Str "P1"); order (Str "o1") (Str "P2") ] in
  validate_delivery_person_id data
  = Ok [[Lit "Validation failed. Issues found:"]; id_message (Str "o1")].
Proof.
  intros order data.
  destruct (validate_delivery_person_id_result data eq_refl eq_refl eq_refl
              eq_refl)
    as (issues & l & Hissues & Hl & _ & _ & Hfail & _).
  rewrite Hl. f_equal.
  assert (Hi : issues = [id_message (Str "o1")]).
  { revert Hissues. vm_compute. by intros [= <-]. }
  rewrite Hfail; [by rewrite Hi|]. by rewrite Hi.
Defined.

(** ** [validate_delivery_person_age], the whole dictionary *)

(** On a frame whose keys [groupby] can sort, the keys of the
    dictionary are exactly the [delivery_person_id]s that two rows give
    different age cells (a missing age is a cell like another here,
    unlike in [validate_id]); they come in increasing order, and every
    list of ages has at least two entries.  The dictionary is empty
    exactly when the age cell is the same in all the rows of every
    [delivery_person_id]. *)
Theorem validate_delivery_person_age_keys (data : DataFrame) :
  pd.has_column data "delivery_person_id" = true →
  pd.has_column data "delivery_person_age" = true →
  pd.sortable (pd.column data "delivery_person_id") = true →
  ∃ discrepancies,
    validate_delivery_person_age data = Ok discrepancies
    ∧ Sorted value_le discrepancies.*1
    ∧ (∀ k, k ∈ discrepancies.*1 ↔
            k ≠ NA
            ∧ ∃ r1 r2, r1 ∈ rows data ∧ r2 ∈ rows data
                       ∧ cell r1 "delivery_person_id" = k
                       ∧ cell r2 "delivery_person_id" = k
                       ∧ cell r1 "delivery_person_age"
                         ≠ cell r2 "delivery_person_age")
    ∧ (∀ k ages, (k, ages) ∈ discrepancies →
                 ages = ages_of data k ∧ 1 < length ages)
    ∧ (discrepancies = [] ↔
       ∀ r1 r2, r1 ∈ rows data → r2 ∈ rows data →
                cell r1 "delivery_person_id" ≠ NA →
                cell r1 "delivery_person_id" = cell r2 "delivery_person_id" →
                cell r1 "delivery_person_age" = cell r2 "delivery_person_age").
Proof.
  intros Hid Hage Hsort. eexists.
  split; [by rewrite validate_delivery_person_age_eq, Hsort by done|].
  set (keys := filter (λ k, 1 < length (ages_of data k))
                 (pd.group_keys (pd.column data "delivery_person_id"))).
  assert (Hfst : ((λ k, (k, ages_of data k)) <$> keys).*1 = keys).
  { rewrite <- list_fmap_compose. apply list_fmap_id. }
  assert (Hkeys : ∀ k, k ∈ keys ↔
            k ≠ NA
            ∧ ∃ r1 r2, r1 ∈ rows data ∧ r2 ∈ rows data
                       ∧ cell r1 "delivery_person_id" = k
                       ∧ cell r2 "delivery_person_id" = k
                       ∧ cell r1 "delivery_person_age"
                         ≠ cell r2 "delivery_person_age").
  { intros k. unfold keys.
    rewrite list_elem_of_filter, elem_of_group_keys.
    unfold ages_of. rewrite length_unique_gt1. split.
    - intros [(a & b & Ha & Hb & Hne) [Hk _]]. split; [done|].
      apply elem_of_group_of in Ha as (r1 & Hr1 & Hk1 & <-).
      apply elem_of_group_of in Hb as (r2 & Hr2 & Hk2 & <-).
      exists r1, r2. done.
    - intros [Hk (r1 & r2 & Hr1 & Hr2 & Hk1 & Hk2 & Hne)]. split.
      + exists (cell r1 "delivery_person_age"),
               (cell r2 "delivery_person_age").
        rewrite !elem_of_group_of. eauto 10.
      + split; [done|]. apply list_elem_of_fmap. eauto. }
  split; [|split; [|split]].
  - rewrite Hfst. apply Sorted_filter, sort_Sorted.
  - intros k. rewrite Hfst. apply Hkeys.
  - intros k ages (k' & [= -> ->] & Hin)%list_elem_of_fmap.
    split; [done|]. by apply list_elem_of_filter in Hin as [Hlen _].
  - split.
    + intros Hnil%fmap_nil_inv r1 r2 Hr1 Hr2 Hk Heq.
      destruct (decide (cell r1 "delivery_person_age"
                        = cell r2 "delivery_person_age")) as [|Hne]; [done|].
      assert (Hin : cell r1 "delivery_person_id" ∈ keys).
      { apply Hkeys. split; [done|]. exists r1, r2. done. }
      rewrite Hnil in Hin. by apply elem_of_nil in Hin.
    + intros Hsame. destruct keys as [|k keys'] eqn:Hk; [done|].
      assert (Hin : k ∈ k :: keys') by left.
      apply Hkeys in Hin
        as [Hna (r1 & r2 & Hr1 & Hr2 & Hk1 & Hk2 & Hne)].
      destruct Hne. apply Hsame; congruence.
Qed.

Lemma validate_delivery_person_age_keys_witness :
  let person (i age : value) : row :=
    <["delivery_person_id" := i]> {["delivery_person_age" := age]} in
  let data :=
    mkDataFrame ["delivery_person_id"; "delivery_person_age"]
      [ person (Str "P2") (int 40); person (Str "P1") (int 30);
        person (Str "P2") NA; person (Str "P1") (int 30) ] in
  ∃ discrepancies,
    validate_delivery_person_age data = Ok discrepancies
    ∧ Str "P2" ∈ discrepancies.*1 ∧ Str "P1" ∉ discrepancies.*1.
Proof.
  intros person data.
  destruct (validate_delivery_person_age_keys data eq_refl eq_refl eq_refl)
    as (d & Hd & _ & Hkeys & _).
  exists d. split; [exact Hd|]. rewrite !Hkeys. split.
  - split; [done|].
    exists (person (Str "P2") (int 40)), (person (Str "P2") NA).
    split; [left|]. split; [right; right; left|]. done.
  - intros [_ (r1 & r2 & Hr1 & Hr2 & Hk1 & Hk2 & Hne)].
    repeat (apply elem_of_cons in Hr1 as [->|Hr1]);
      try (by apply elem_of_nil in Hr1);
      repeat (apply elem_of_cons in Hr2 as [->|Hr2]);
      try (by apply elem_of_nil in Hr2);
      vm_compute in Hk1, Hk2, Hne; congruence.
Defined.

(** ** [validate_delivery_location_coordinate] *)

(** Like its sibling for restaurants,
    [validate_delivery_location_coordinate] never returns a dictionary
    once its three columns are present: it raises on a comparison with a
    string, or else on the [unique] it asks of the grouped frame. *)
Theorem validate_delivery_location_coordinate_never_returns
    (data : DataFrame) :
  pd.has_column data "delivery_location_id" = true →
  pd.has_column data "delivery_location_latitude" = true →
  pd.has_column data "delivery_location_longitude" = true →
  (∀ discrepancies,
     validate_delivery_location_coordinate data ≠ Ok discrepancies)
  ∧ (validate_delivery_location_coordinate data = Raise TypeError
     ∨ validate_delivery_location_coordinate data
       = Raise (AttributeError
                  "'DataFrameGroupBy' object has no attribute 'unique'")).
Proof.
  intros Hid Hlat Hlon.
  pose proof (validate_coordinate_raises "delivery_location_id"
    "delivery_location_latitude" "delivery_location_longitude"
    "The DataFrame must contain 'delivery_location_id', 'delivery_location_latitude', and 'delivery_location_longitude' columns."
    data Hid Hlat Hlon) as H.
  fold validate_delivery_location_coordinate in H.
  split; [|done]. intros d Hd. rewrite Hd in H.
  destruct H as [H|H]; discriminate H.
Qed.

Lemma validate_delivery_location_coordinate_never_returns_witness :
  let data :=
    mkDataFrame
      ["delivery_location_id"; "delivery_location_latitude";
       "delivery_location_longitude"]
      [ <["delivery_location_id" := int 5]>
          (<["delivery_location_latitude" := int 95]>
             {["delivery_location_longitude" := int 77]}) ] in
  validate_delivery_location_coordinate data
  = Raise (AttributeError
             "'DataFrameGroupBy' object has no attribute 'unique'").
Proof.
  intros data.
  destruct (validate_delivery_location_coordinate_never_returns data
              eq_refl eq_refl eq_refl) as [_ [H|H]].
  - exfalso. revert H. vm_compute. discriminate.
  - exact H.
Defined.

(** ** [validate_delivery_time], the whole report *)

Lemma any_true_raises (f : value → result bool) (cells : list value)
    (e : exception) :
  (∀ v e', f v = Raise e' → e' = e) →
  (∃ v, v ∈ cells ∧ f v = Raise e) →
  any_true f cells = Raise e.
Proof.
  intros Hone. induction cells as [|v cells IH]; intros (w & Hw & Hf).
  - by apply elem_of_nil in Hw.
  - cbn [any_true]. destruct (f v) as [b|e'] eqn:Hv; cbn [mbind result_bind].
    + apply elem_of_cons in Hw as [->|Hw]; [congruence|].
      rewrite IH; [done|eauto].
    + f_equal. by eapply Hone.
Qed.

Lemma any_true_ok (f : value → result bool) (cells : list value) :
  (∀ v, v ∈ cells → ∃ b, f v = Ok b) →
  ∃ b, any_true f cells = Ok b
       ∧ (b = true ↔ ∃ v, v ∈ cells ∧ f v = Ok true).
Proof.
  induction cells as [|v cells IH]; intros Hall.
  - exists false. split; [done|]. split; [done|].
    intros (v & Hv & _). by apply elem_of_nil in Hv.
  - destruct (Hall v) as [b Hb]; [left|].
    destruct IH as (bs & Hbs & Hiff).
    { intros w Hw. apply Hall. by right. }
    exists (b || bs). cbn [any_true]. rewrite Hb, Hbs.
    split; [done|]. rewrite orb_true_iff, Hiff. split.
    + intros [-> | (w & Hw & Hf)]; [exists v; split; [left|done]|].
      exists w. split; [by right|done].
    + intros (w & Hw & Hf). apply elem_of_cons in Hw as [->|Hw].
      * left. congruence.
      * right. eauto.
Qed.

(** What [validate_delivery_time] returns, cell by cell.  If the column
    is a [datetime64] column, or holds a string or an instant, the
    comparison raises [TypeError].  On a column of numbers and missing
    cells that is not [datetime64], the list holds the message on
    negative times exactly when some number is below 0, and the message
    on long times exactly when some number is above 120, in this order
    and nothing else; 0 and 120 themselves are in range. *)
Theorem validate_delivery_time_report (data : DataFrame) :
  pd.has_column data "delivery_time" = true →
  (pd.is_datetime64_any_dtype data "delivery_time" = true
   ∨ (∃ v, v ∈ pd.column data "delivery_time"
           ∧ ((∃ s, v = Str s) ∨ (∃ t, v = Timestamp t))) →
   validate_delivery_time data = Raise TypeError)
  ∧ (pd.is_datetime64_any_dtype data "delivery_time" = false →
     (∀ v, v ∈ pd.column data "delivery_time" →
           v = NA ∨ ∃ q, v = Num q) →
     ∃ l, validate_delivery_time data = Ok l
          ∧ sublist l [negative_message; high_message]
          ∧ (negative_message ∈ l ↔
             ∃ q, Num q ∈ pd.column data "delivery_time"
                  ∧ (q < Qc_of_Z 0)%Qc)
          ∧ (high_message ∈ l ↔
             ∃ q, Num q ∈ pd.column data "delivery_time"
                  ∧ (Qc_of_Z 120 < q)%Qc)).
Proof.
  intros Hcol. rewrite validate_delivery_time_eq by done. split.
  - intros [-> | (v & Hv & Hkind)]; [done|].
    destruct (pd.is_datetime64_any_dtype data "delivery_time"); [done|].
    rewrite (any_true_raises (pd.lt_scalar (Qc_of_Z 0)) _ TypeError);
      [reflexivity| |].
    + intros [] e'; cbn; congruence.
    + exists v. split; [done|]. by destruct Hkind as [[s ->]|[t ->]].
  - intros -> Hnum.
    destruct (any_true_ok (pd.lt_scalar (Qc_of_Z 0))
                (pd.column data "delivery_time")) as (neg & Hneg & Hn).
    { intros v [->|[q ->]]%Hnum; cbn; eauto. }
    destruct (any_true_ok (pd.gt_scalar (Qc_of_Z 120))
                (pd.column data "delivery_time")) as (high & Hhigh & Hh).
    { intros v [->|[q ->]]%Hnum; cbn; eauto. }
    rewrite Hneg, Hhigh. cbn [mbind result_bind]. eexists.
    split; [done|].
    assert (Hn' : neg = true ↔
              ∃ q, Num q ∈ pd.column data "delivery_time"
                   ∧ (q < Qc_of_Z 0)%Qc).
    { rewrite Hn. split.
      - intros (v & Hv & Hf). destruct v as [|s|q|t]; try discriminate Hf.
        exists q. split; [done|]. cbn in Hf. injection Hf as Hf.
        by apply bool_decide_eq_true in Hf.
      - intros (q & Hq & Hlt). exists (Num q). split; [done|]. cbn.
        f_equal. by apply bool_decide_eq_true. }
    assert (Hh' : high = true ↔
              ∃ q, Num q ∈ pd.column data "delivery_time"
                   ∧ (Qc_of_Z 120 < q)%Qc).
    { rewrite Hh. split.
      - intros (v & Hv & Hf). destruct v as [|s|q|t]; try discriminate Hf.
        exists q. split; [done|]. cbn in Hf. injection Hf as Hf.
        by apply bool_decide_eq_true in Hf.
      - intros (q & Hq & Hlt). exists (Num q). split; [done|]. cbn.
        f_equal. by apply bool_decide_eq_true. }
    rewrite <- Hn', <- Hh'. clear Hn Hh Hn' Hh' Hneg Hhigh.
    unfold negative_message, high_message.
    destruct neg, high; cbn [app]; (split; [|split]);
      try (by repeat first [apply sublist_nil_l | apply sublist_skip
                           | apply sublist_cons]);
      (split; intros H; try done; try (by left); try (by right; left);
       repeat (apply elem_of_cons in H as [H|H]; [discriminate H|]);
       by apply elem_of_nil in H).
Qed.

Lemma validate_delivery_time_report_witness :
  let data :=
    mkDataFrame ["delivery_time"]
      [ {["delivery_time" := int 0]}; {["delivery_time" := int 120]};
        {["delivery_time" := NA]}; {["delivery_time" := int 121]} ] in
  ∃ l, validate_delivery_time data = Ok l
       ∧ high_message ∈ l ∧ negative_message ∉ l.
Proof.
  intros data.
  destruct (validate_delivery_time_report data eq_refl) as [_ Hnum].
  destruct Hnum as (l & Hl & _ & Hneg & Hhigh); [reflexivity| |].
  { intros v Hv.
    repeat (apply elem_of_cons in Hv as [->|Hv]);
      try (by apply elem_of_nil in Hv); eauto. }
  exists l. split; [exact Hl|]. rewrite Hneg, Hhigh. split.
  - exists (Qc_of_Z 121). split; [right; right; right; left|done].
  - intros (q & Hq & Hlt).
    change (pd.column data "delivery_time")
      with [int 0; int 120; NA; int 121] in Hq.
    repeat (apply elem_of_cons in Hq as [Hq|Hq]);
      try (by apply elem_of_nil in Hq);
      try discriminate Hq; injection Hq as ->; by vm_compute in Hlt.
Defined.

(** ** [validate_order_date], the whole report *)

Lemma series_map_ok {A B} (f : A → result B) (g : A → B) (l : list A) :
  (∀ x, x ∈ l → f x = Ok (g x)) → pd.series_map f l = Ok (g <$> l).
Proof.
  induction l as [|x l IH]; intros Hall; [done|].
  cbn [pd.series_map]. rewrite (Hall x) by left.
  cbn [mbind result_bind]. rewrite IH; [done|].
  intros y Hy. apply Hall. by right.
Qed.

Lemma column_imap_insert (c : string) (g : nat → value) (rs : list row) :
  (λ r, cell r c) <$> imap (λ i r, <[c := g i]> r) rs
  = imap (λ i _, g i) rs.
Proof.
  revert g. induction rs as [|r rs IH]; intros g; [done|].
  cbn [imap fmap list_fmap]. f_equal.
  - unfold cell. by rewrite lookup_insert_eq.
  - apply (IH (g ∘ S)).
Qed.

Lemma elem_of_imap_const {A} (g : nat → value) (l : list A) (v : value) :
  v ∈ imap (λ i _, g i) l → ∃ i, v = g i.
Proof.
  revert g. induction l as [|x l IH]; intros g Hv.
  - by apply elem_of_nil in Hv.
  - cbn [imap] in Hv. apply elem_of_cons in Hv as [->|Hv]; [eauto|].
    apply (IH (g ∘ S)) in Hv as [i ->]. by exists (S i).
Qed.

(** After the assignment the column holds instants and missing cells
    only. *)
Lemma set_column_coerce (data : DataFrame) (tz : bool)
    (parsed : list (option Z)) (v : value) :
  v ∈ pd.column (pd.set_column data "order_date" tz (pd.coerce parsed))
        "order_date" →
  v = NA ∨ ∃ t, v = Timestamp t.
Proof.
  unfold pd.column, pd.set_column. cbn [rows].
  rewrite column_imap_insert. intros [i ->]%elem_of_imap_const.
  unfold pd.coerce. rewrite list_lookup_fmap.
  destruct (parsed !! i) as [[t|]|]; cbn; eauto.
Qed.

Lemma filter_nil_iff {A} (P : A → Prop) `{∀ x, Decision (P x)}
    (l : list A) :
  filter P l = [] ↔ ∀ x, x ∈ l → ¬ P x.
Proof.
  split.
  - intros Hnil x Hx HP.
    assert (Hin : x ∈ filter P l) by by apply list_elem_of_filter.
    rewrite Hnil in Hin. by apply elem_of_nil in Hin.
  - intros Hnone. destruct (filter P l) as [|x l'] eqn:Hf; [done|].
    assert (Hin : x ∈ filter P l) by (rewrite Hf; left).
    apply list_elem_of_filter in Hin as [HP Hx]. by destruct (Hnone x Hx).
Qed.

Section order_date_report.
Variable to_datetime
  : option dtype → list value → result (bool * list (option Z)).
Variable now : Z.

(** With its column present, [validate_order_date] raises in two cases
    only.  When the parser raises, the error leaves the validator and
    the frame is as it was.  When the timestamps the parser has read
    carry a time zone, the comparison with the clock, which has none,
    raises [TypeError], and the column has been converted already.  In
    every other case the frame holds instants and missing cells in a
    [datetime64] column afterwards, so that the [format_error] entry is
    never made, and the message is the all-clear or a heading followed
    by at most three lines, in this order: the number of cells that were
    missing before the conversion, the cells that are missing after it,
    the instants that lie after the clock. *)
Theorem validate_order_date_report (data : DataFrame) :
  pd.has_column data "order_date" = true →
  match to_datetime (dtypes data !! "order_date")
          (pd.column data "order_date") with
  | Raise e => validate_order_date to_datetime now data = (Raise e, data)
  | Ok (tz, parsed) =>
      let after := pd.set_column data "order_date" tz (pd.coerce parsed) in
      let missing := filter (λ r, cell r "order_date" = NA) (rows data) in
      let invalid := filter (λ r, cell r "order_date" = NA) (rows after) in
      let future :=
        filter (λ r, in_future now (cell r "order_date") = true)
          (rows after) in
      let dates (l : list row) :=
        PyList ((λ r, PyVal (cell r "order_date")) <$> l) in
      (validate_order_date to_datetime now data).2 = after
      ∧ pd.is_datetime64_any_dtype after "order_date" = true
      ∧ (∀ v, v ∈ pd.column after "order_date" →
              v = NA ∨ ∃ t, v = Timestamp t)
      ∧ (validate_order_date to_datetime now data).1
        = if tz then Raise TypeError
          else
            Ok (if bool_decide (missing = [] ∧ invalid = [] ∧ future = [])
                then [Lit "All order dates are valid and consistent."]
                else
                  [Lit "Discrepancies found in order dates:"; Lit nl]
                  ++ (if bool_decide (missing = []) then []
                      else [Lit "missing_dates"; Lit ": ";
                            Lit "Missing order dates found: ";
                            Fmt (PyInt (length missing)); Lit nl])
                  ++ (if bool_decide (invalid = []) then []
                      else [Lit "invalid_dates"; Lit ": ";
                            Lit "Invalid order dates found: ";
                            Fmt (dates invalid); Lit nl])
                  ++ (if bool_decide (future = []) then []
                      else [Lit "future_dates"; Lit ": ";
                            Lit "Future order dates found: ";
                            Fmt (dates future); Lit nl]))
  end.
Proof.
  intros Hcol.
  destruct (to_datetime _ _) as [[tz parsed]|e] eqn:Hread;
    [|by apply validate_order_date_raises].
  intros after missing invalid future dates.
  split; [by apply validate_order_date_frame|].
  assert (Hdtype : pd.is_datetime64_any_dtype after "order_date" = true).
  { unfold pd.is_datetime64_any_dtype, after, pd.set_column.
    cbn [dtypes]. by rewrite lookup_insert_eq. }
  split; [exact Hdtype|].
  assert (Hkind : ∀ v, v ∈ pd.column after "order_date" →
                       v = NA ∨ ∃ t, v = Timestamp t)
    by apply set_column_coerce.
  split; [exact Hkind|].
  assert (Hcol' : pd.has_column after "order_date" = true).
  { unfold after, pd.has_column, pd.set_column in *.
    cbn [columns]. by rewrite Hcol. }
  assert (Haware : pd.tz_aware after "order_date" = tz).
  { unfold pd.tz_aware, after, pd.set_column. cbn [dtypes].
    rewrite lookup_insert_eq. destruct tz; by vm_compute. }
  unfold validate_order_date. rewrite Hcol, Hread. cbn [negb]. cbv zeta.
  fold after. unfold pd.gt_timestamp. rewrite Haware.
  destruct tz; [done|].
  rewrite (series_map_ok _ (in_future now)).
  2:{ intros v [->|[t ->]]%Hkind; reflexivity. }
  rewrite Hdtype. cbn [negb fst].
  rewrite (empty_select _ "order_date" "order_date" data) by done.
  rewrite !(empty_select _ "order_date" "order_date" after) by done.
  unfold pd.len. rewrite !column_select, !select_column, !filter_isnull.
  fold missing invalid future.
  rewrite <- !list_fmap_compose.
  change (PyList ((PyVal ∘ (λ r, cell r "order_date")) <$> invalid))
    with (dates invalid).
  change (PyList ((PyVal ∘ (λ r, cell r "order_date")) <$> future))
    with (dates future).
  clearbody missing invalid future dates. f_equal.
  destruct missing as [|r1 l1], invalid as [|r2 l2], future as [|r3 l3];
    reflexivity.
Qed.

End order_date_report.

Lemma validate_order_date_report_witness :
  let data :=
    mkDataFrame ["order_date"]
      [ {["order_date" := Str "2024-01-15"]}; {["order_date" := NA]} ] in
  (validate_order_date sample_to_datetime 0%Z data).1
  = Ok [Lit "Discrepancies found in order dates:"; Lit nl;
        Lit "missing_dates"; Lit ": "; Lit "Missing order dates found: ";
        Fmt (PyInt 1); Lit nl;
        Lit "invalid_dates"; Lit ": "; Lit "Invalid order dates found: ";
        Fmt (PyList [PyVal NA]); Lit nl;
        Lit "future_dates"; Lit ": "; Lit "Future order dates found: ";
        Fmt (PyList [PyVal (Timestamp 1705276800000000000%Z)]); Lit nl].
Proof.
  intros data.
  pose proof (validate_order_date_report sample_to_datetime 0%Z data eq_refl)
    as H.
  set (call := validate_order_date sample_to_datetime 0%Z data) in *.
  cbv beta iota zeta delta [sample_to_datetime] in H.
  destruct H as (_ & _ & _ & H). rewrite H. vm_compute. reflexivity.
Defined.

(** The conversion happens once.  When the reader keeps the instants,
    the missing cells and the time zone of a [datetime64] column as they
    are, a frame that has been through [validate_order_date] is left
    unchanged by every later call, and later calls at one clock value
    return one message or raise one error. *)
Theorem validate_order_date_settles
    (to_datetime
       : option dtype → list value → result (bool * list (option Z)))
    (now now' : Z) (data : DataFrame) :
  pd.has_column data "order_date" = true →
  (∀ tz col, (∀ v, v ∈ col → v = NA ∨ ∃ t, v = Timestamp t) →
             to_datetime (Some (datetime64 tz)) col
             = Ok (tz,
                   (λ v, match v with Timestamp t => Some t | _ => None end)
                     <$> col)) →
  let once := (validate_order_date to_datetime now data).2 in
  (validate_order_date to_datetime now' once).2 = once
  ∧ validate_order_date to_datetime now'
      (validate_order_date to_datetime now' once).2
    = validate_order_date to_datetime now' once.
Proof.
  intros Hcol Hkeep once.
  assert (Hfix : (validate_order_date to_datetime now' once).2 = once).
  { destruct (to_datetime (dtypes data !! "order_date")
                (pd.column data "order_date"))
      as [[tz parsed]|e] eqn:Hread.
    2:{ assert (Honce : once = data)
          by (unfold once;
              by rewrite (validate_order_date_raises _ _ _ e Hcol Hread)).
        rewrite Honce.
        by rewrite (validate_order_date_raises _ _ _ e Hcol Hread). }
    assert (Honce : once
      = pd.set_column data "order_date" tz (pd.coerce parsed))
      by by apply validate_order_date_frame.
    assert (Hcol' : pd.has_column once "order_date" = true).
    { rewrite Honce. unfold pd.has_column, pd.set_column in *.
      cbn [columns]. by rewrite Hcol. }
    assert (Hkind : ∀ v, v ∈ pd.column once "order_date" →
                         v = NA ∨ ∃ t, v = Timestamp t).
    { rewrite Honce. apply set_column_coerce. }
    assert (Htz : dtypes once !! "order_date" = Some (datetime64 tz)).
    { rewrite Honce. unfold pd.set_column. cbn [dtypes].
      by rewrite lookup_insert_eq. }
    rewrite (validate_order_date_frame to_datetime now' once tz
               ((λ v, match v with Timestamp t => Some t | _ => None end)
                  <$> pd.column once "order_date")); [|done|].
    2:{ rewrite Htz. by apply Hkeep. }
    assert (Hsame : pd.coerce
              ((λ v, match v with Timestamp t => Some t | _ => None end)
                 <$> pd.column once "order_date")
            = pd.column once "order_date").
    { unfold pd.coerce. rewrite <- list_fmap_compose.
      rewrite <- (list_fmap_id (pd.column once "order_date")) at 2.
      apply list_fmap_ext. intros i v Hv%list_elem_of_lookup_2.
      by destruct (Hkind v Hv) as [->|[t ->]]. }
    rewrite Hsame. unfold pd.set_column.
    unfold pd.has_column in Hcol'. apply bool_decide_eq_true in Hcol'.
    rewrite (bool_decide_eq_true_2 _ Hcol').
    destruct once as [cols rs dts] eqn:Ho. cbn [columns rows dtypes] in *.
    f_equal.
    - apply list_eq. intros i.
      rewrite list_lookup_imap. unfold pd.column. cbn [rows].
      rewrite list_lookup_fmap.
      destruct (rs !! i) as [r|] eqn:Hr; [|done]. cbn. f_equal.
      apply insert_id.
      assert (Hin : r ∈ rows (pd.set_column data "order_date" tz
                                (pd.coerce parsed))).
      { rewrite <- Honce. cbn [rows]. by eapply list_elem_of_lookup_2. }
      unfold pd.set_column in Hin. cbn [rows] in Hin.
      apply list_elem_of_lookup in Hin as [j Hj].
      rewrite list_lookup_imap in Hj.
      destruct (rows data !! j) as [r0|]; [|discriminate Hj].
      injection Hj as <-. unfold cell. by rewrite lookup_insert_eq.
    - by apply insert_id. }
  split; [exact Hfix|]. by rewrite Hfix.
Qed.

Lemma sample_to_datetime_keeps (tz : bool) (col : list value) :
  (∀ v, v ∈ col → v = NA ∨ ∃ t, v = Timestamp t) →
  sample_to_datetime (Some (datetime64 tz)) col
  = Ok (tz,
        (λ v, match v with Timestamp t => Some t | _ => None end) <$> col).
Proof.
  intros Hkind. unfold sample_to_datetime. do 2 f_equal.
  apply list_fmap_ext. intros i v Hv%list_elem_of_lookup_2.
  by destruct (Hkind v Hv) as [->|[t ->]].
Qed.

Lemma validate_order_date_settles_witness :
  let data :=
    mkDataFrame ["order_date"]
      [ {["order_date" := Str "2024-01-15"]};
        {["order_date" := Str "soon"]} ] in
  let once := (validate_order_date sample_to_datetime 0%Z data).2 in
  (validate_order_date sample_to_datetime 5%Z once).2 = once.
Proof.
  intros data once.
  apply (validate_order_date_settles sample_to_datetime 0%Z 5%Z data
           eq_refl sample_to_datetime_keeps).
Defined.

(** ** The closing message *)

Lemma dict_set_ne_nil {K V} `{EqDecision K} (d : dict K V) (k : K) (v : V) :
  dict_set d k v ≠ [].
Proof.
  destruct d as [|[k' v'] d]; cbn [dict_set]; [done|].
  by destruct (decide (k' = k)).
Qed.

Lemma dict_set_if_nil {K V} `{EqDecision K} (b : bool) (d : dict K V)
    (k : K) (v : V) :
  (if b then dict_set d k v else d) = [] ↔ b = false ∧ d = [].
Proof.
  destruct b; split.
  - intros H. by apply dict_set_ne_nil in H.
  - intros [H _]. discriminate H.
  - done.
  - by intros [_ H].
Qed.

Lemma result_message_length (discrepancies : dict string text)
    (acc : text) :
  (length acc
   ≤ length (foldl (λ result_message '(issue, details),
                      result_message ++ [Lit issue; Lit ": "] ++ details
                        ++ [Lit nl])
                   acc discrepancies))%nat.
Proof.
  revert acc. induction discrepancies as [|[issue details] d IH];
    intros acc; cbn [foldl]; [done|].
  etransitivity; [|apply IH]. rewrite length_app. lia.
Qed.

(** A validator that closes with [result_message] returns the all-clear
    exactly when it found nothing. *)
Lemma result_message_clear (header ok : string)
    (discrepancies : dict string text) :
  result_message header ok discrepancies = [Lit ok] ↔ discrepancies = [].
Proof.
  unfold result_message. destruct discrepancies as [|x d].
  - by rewrite bool_decide_eq_false_2 by (by intros H).
  - rewrite bool_decide_eq_true_2 by done. split; [|done].
    intros H. apply (f_equal length) in H. cbn [length] in H.
    pose proof (result_message_length (x :: d) [Lit header; Lit nl]) as Hlen.
    cbn [length] in Hlen. lia.
Qed.

(** ** [validate_order_time], the all-clear *)

Section order_time_clear.
Variable strptime : string → option Z.

Lemma isnull_false (v : value) : pd.isnull v = false ↔ v ≠ NA.
Proof. destruct v; cbn; split; done. Qed.

Lemma time_row_clear (r : row) :
  (pd.isnull (cell r "time_ordered") = false
   ∧ pd.isnull (cell r "time_order_picked") = false
   ∧ invalid_time_row strptime r = false
   ∧ inconsistent_time_row strptime r = false)
  ↔ cell r "time_ordered" ≠ NA
    ∧ cell r "time_order_picked" ≠ NA
    ∧ ∃ time_ordered time_order_picked,
        to_datetime_format strptime (cell r "time_ordered")
        = Ok time_ordered
        ∧ to_datetime_format strptime (cell r "time_order_picked")
          = Ok time_order_picked
        ∧ ∀ s t, time_ordered = Some s → time_order_picked = Some t →
                 (s ≤ t)%Z.
Proof.
  rewrite !isnull_false.
  unfold invalid_time_row, inconsistent_time_row, unparseable.
  destruct (to_datetime_format strptime (cell r "time_ordered"))
    as [[s|]|e];
    destruct (to_datetime_format strptime (cell r "time_order_picked"))
      as [[t|]|e']; cbn [orb];
    (split;
     [ intros (H1 & H2 & H3 & H4); try discriminate;
       (split; [done|]); (split; [done|]);
       eexists _, _; (split; [reflexivity|]); (split; [reflexivity|]);
       intros s' t' Hs Ht; try discriminate;
       injection Hs as <-; injection Ht as <-;
       apply bool_decide_eq_false in H4; lia
     | intros (H1 & H2 & x & y & Hx & Hy & Hle); try discriminate;
       (split; [done|]); (split; [done|]); (split; [done|]);
       try done;
       injection Hx as <-; injection Hy as <-;
       apply bool_decide_eq_false;
       specialize (Hle s t eq_refl eq_refl); lia ]).
Qed.

(** With both columns present and neither of them carrying a time zone,
    [validate_order_time] returns the all-clear exactly when in every
    row both cells are present, both are read without an error, and the
    pick-up is not before the order wherever both are read as times.  A
    missing time, an unreadable one or an earlier pick-up each prevent
    it; an equal time does not, nor does a string that is read as
    [NaT]. *)
Theorem validate_order_time_clear_iff (data : DataFrame) :
  pd.has_column data "time_ordered" = true →
  pd.has_column data "time_order_picked" = true →
  pd.tz_aware data "time_ordered" = false →
  pd.tz_aware data "time_order_picked" = false →
  validate_order_time strptime data
  = Ok [Lit "All order times are valid and consistent."]
  ↔ ∀ r, r ∈ rows data →
         cell r "time_ordered" ≠ NA
         ∧ cell r "time_order_picked" ≠ NA
         ∧ ∃ time_ordered time_order_picked,
             to_datetime_format strptime (cell r "time_ordered")
             = Ok time_ordered
             ∧ to_datetime_format strptime (cell r "time_order_picked")
               = Ok time_order_picked
             ∧ ∀ s t, time_ordered = Some s → time_order_picked = Some t →
                      (s ≤ t)%Z.
Proof.
  intros Hordered Hpicked Htz Htz'.
  apply bool_decide_eq_false in Htz, Htz'.
  destruct (decide (Forall (λ r, cell r "time_ordered" ≠ NA
                                 ∧ cell r "time_order_picked" ≠ NA)
                      (rows data)))
    as [Hpresent|Hmissing]; rewrite Forall_forall in *; cycle 1.
  { (* a missing cell: whatever the scan does, no all-clear *)
    split; [|intros Hall; destruct Hmissing; intros r Hr;
              destruct (Hall r Hr) as (? & ? & _); done].
    intros Hclear. destruct Hmissing. intros r Hr.
    revert Hclear. unfold validate_order_time, order_time_discrepancies.
    rewrite Hordered, Hpicked. cbn [negb orb mbind result_bind app].
    destruct (order_time_scan strptime data) as [[inv inc]|e];
      [|discriminate].
    cbn [mbind result_bind].
    rewrite (empty_select _ "time_ordered" "time_ordered") by done.
    rewrite (empty_select _ "time_order_picked" "time_ordered") by done.
    intros [= Hd]. apply result_message_clear in Hd. revert Hd.
    rewrite !dict_set_if_nil.
    rewrite !negb_false_iff, !bool_decide_eq_true.
    rewrite !filter_nil_iff.
    intros (_ & _ & Hmp & Hmo). revert Hmo.
    case_bool_decide as Hnil; cbn [negb]; [intros _|discriminate].
    rewrite filter_nil_iff in Hnil.
    split; apply isnull_false, not_true_is_false;
      [by apply Hnil|by apply Hmp]. }
  assert (Hkind : ∀ r, r ∈ rows data →
            kind_of (dtypes data !! "time_ordered") (cell r "time_ordered")
            = naive
            ∧ kind_of (dtypes data !! "time_order_picked")
                (cell r "time_order_picked") = naive).
  { intros r Hr. destruct (Hpresent r Hr) as [Ha Hb]. unfold kind_of.
    split.
    - destruct (dtypes data !! "time_ordered") as [[[]|]|];
        try done; by destruct (cell r "time_ordered").
    - destruct (dtypes data !! "time_order_picked") as [[[]|]|];
        try done; by destruct (cell r "time_order_picked"). }
  unfold validate_order_time, order_time_discrepancies.
  rewrite Hordered, Hpicked, order_time_scan_naive by done.
  cbn [negb orb mbind result_bind app].
  rewrite (empty_select _ "time_ordered" "time_ordered") by done.
  rewrite (empty_select _ "time_order_picked" "time_ordered") by done.
  set (d := if bool_decide (_ ≠ []) then _ else _).
  transitivity (d = []).
  { split; [intros [= H]; by apply result_message_clear in H|].
    intros H. f_equal. by apply result_message_clear. }
  unfold d. rewrite !dict_set_if_nil.
  rewrite !negb_false_iff, !bool_decide_eq_true, !bool_decide_eq_false.
  rewrite !filter_nil_iff.
  split.
  - intros (Hinc & Hinv & Hmp & Hmo & _) r Hr. apply time_row_clear.
    split; [by apply not_true_is_false, (Hmo r)|].
    split; [by apply not_true_is_false, (Hmp r)|].
    split; apply not_true_is_false.
    + intros Hrow. apply Hinv. intros Hnil%fmap_nil_inv.
      by apply (proj1 (filter_nil_iff _ _) Hnil r).
    + intros Hrow. apply Hinc. intros Hnil%fmap_nil_inv.
      by apply (proj1 (filter_nil_iff _ _) Hnil r).
  - intros Hall.
    assert (Hrow : ∀ r, r ∈ rows data →
              pd.isnull (cell r "time_ordered") = false
              ∧ pd.isnull (cell r "time_order_picked") = false
              ∧ invalid_time_row strptime r = false
              ∧ inconsistent_time_row strptime r = false).
    { intros r Hr. by apply time_row_clear, Hall. }
    split; [|split; [|split; [|split; [|done]]]].
    + intros H. apply H. rewrite (proj2 (filter_nil_iff _ _)); [done|].
      intros r Hr. destruct (Hrow r Hr) as (_ & _ & _ & ->). done.
    + intros H. apply H. rewrite (proj2 (filter_nil_iff _ _)); [done|].
      intros r Hr. destruct (Hrow r Hr) as (_ & _ & -> & _). done.
    + intros r Hr. destruct (Hrow r Hr) as (_ & -> & _). done.
    + intros r Hr. destruct (Hrow r Hr) as (-> & _). done.
Qed.

End order_time_clear.

Lemma validate_order_time_clear_iff_witness :
  let times (a b : value) : row :=
    <["time_ordered" := a]> {["time_order_picked" := b]} in
  let data :=
    mkDataFrame ["time_ordered"; "time_order_picked"]
      [ times (Str "10:00:00") (Str "10:00:00");
        times (Str "18:45:00") (Str "18:50:00");
        times (Str "nan") (Str "07:00:00") ] in
  validate_order_time sample_strptime data
  = Ok [Lit "All order times are valid and consistent."].
Proof.
  intros times data.
  apply (validate_order_time_clear_iff sample_strptime data eq_refl eq_refl
           eq_refl eq_refl).
  intros r Hr.
  repeat (apply elem_of_cons in Hr as [->|Hr]);
    try (by apply elem_of_nil in Hr);
    (split; [done|]); (split; [done|]).
  - exists (Some 36000%Z), (Some 36000%Z).
    split; [done|]. split; [done|]. by intros s t [= <-] [= <-].
  - exists (Some 67500%Z), (Some 67800%Z).
    split; [done|]. split; [done|]. by intros s t [= <-] [= <-].
  - exists None, (Some 25200%Z).
    split; [done|]. split; [done|]. by intros s t [=].
Defined.

(** ** The validators of a column against a set, the all-clear *)

Lemma foldl_length {A} (step : text → A → text) (l : list A) (acc : text) :
  (∀ acc x, (length acc ≤ length (step acc x))%nat) →
  (length acc ≤ length (foldl step acc l))%nat.
Proof.
  intros Hstep. revert acc. induction l as [|x l IH]; intros acc; [done|].
  cbn [foldl]. etransitivity; [apply (Hstep acc x)|apply IH].
Qed.

Lemma domain_message_clear (header ok : string)
    (discrepancies : dict string details) :
  domain_message header ok discrepancies = [Lit ok] ↔ discrepancies = [].
Proof.
  unfold domain_message. destruct discrepancies as [|x d]; [done|].
  split; [|done]. intros H. apply (f_equal length) in H.
  match type of H with
  | length (foldl ?f ?acc ?l) = _ =>
      set (step := f) in H;
      pose proof (foldl_length step l acc) as Hlen
  end.
  assert (Hstep : ∀ (acc : text) (y : string * details),
            (length acc ≤ length (step acc y))%nat).
  { intros acc0 [issue [t|count lst]]; subst step; cbn beta iota;
      rewrite !length_app; cbn [length]; lia. }
  specialize (Hlen Hstep). rewrite H in Hlen. cbn [length] in Hlen. lia.
Qed.

Lemma validate_domain_clear (field guard : string) (expected : list value)
    (missing_key missing_text invalid_key header ok : string)
    (data : DataFrame) :
  pd.has_column data field = true →
  missing_key ≠ invalid_key →
  NA ∉ expected →
  validate_domain field guard expected missing_key missing_text
    invalid_key header ok data = Ok [Lit ok]
  ↔ ∀ r, r ∈ rows data → cell r field ∈ expected.
Proof.
  intros Hcol Hkeys Hna. unfold validate_domain. rewrite Hcol. cbn [negb].
  transitivity (domain_discrepancies field expected missing_key
                  missing_text invalid_key data = []).
  { split; [intros [= H]; by apply domain_message_clear in H|].
    intros H. f_equal. by apply domain_message_clear. }
  rewrite domain_discrepancies_eq by done. split.
  - intros [Hm Hi]%app_eq_nil r Hr.
    destruct (bool_decide (invalid_rows field expected data = []))
      eqn:Hinv; [|discriminate Hi].
    apply bool_decide_eq_true in Hinv.
    unfold invalid_rows in Hinv.
    pose proof (proj1 (filter_nil_iff _ _) Hinv r Hr) as Hrow.
    unfold pd.isin in Hrow.
    destruct (decide (cell r field ∈ expected)) as [|Hnot]; [done|].
    destruct Hrow. rewrite (bool_decide_eq_false_2 _ Hnot).
    by rewrite andb_false_r.
  - intros Hall.
    assert (Hinv : invalid_rows field expected data = []).
    { apply filter_nil_iff. intros r Hr. specialize (Hall r Hr).
      unfold pd.isin, pd.notnull.
      rewrite (bool_decide_eq_true_2 _ Hall).
      destruct (cell r field); [done| | |]; cbn; discriminate. }
    assert (Hmis : missing_rows field data = []).
    { destruct (missing_rows field data) as [|r l] eqn:Hm; [done|].
      assert (Hin : r ∈ missing_rows field data) by (rewrite Hm; left).
      apply (missing_rows_invalid _ expected) in Hin.
      rewrite Hinv in Hin. by apply elem_of_nil in Hin. }
    by rewrite Hinv, Hmis.
Qed.

Section domain_family.
Variable to_datetime
  : option dtype → list value → result (bool * list (option Z)).
Variable now : Z.
Variable strptime : string → option Z.

(** Each of the seven validators of a column against a set of expected
    values ([weather_condition], [road_traffic_density],
    [vehicle_condition], [type_of_order], [type_of_vehicle], [festival],
    [city]) returns its all-clear exactly when every cell of its column
    is one of its expected values; a missing cell is none of them. *)
Theorem domain_validator_clear_iff (v : validator) (field ok : string)
    (expected : list value) (data : DataFrame) :
  domain_rule v = Some (field, expected, ok) →
  pd.has_column data field = true →
  (call to_datetime now strptime v data).1 = Ok (Message [Lit ok])
  ↔ ∀ r, r ∈ rows data → cell r field ∈ expected ∧ cell r field ≠ NA.
Proof.
  intros Hrule Hcol.
  assert (Hna : NA ∉ expected).
  { destruct v; try discriminate Hrule; injection Hrule as <- <- <-;
      intros H; repeat (apply elem_of_cons in H as [H|H]; [discriminate H|]);
      by apply elem_of_nil in H. }
  transitivity (∀ r, r ∈ rows data → cell r field ∈ expected).
  2:{ split; [|intros H r Hr; by apply H].
      intros H r Hr. split; [by apply H|]. intros Heq.
      apply Hna. rewrite <- Heq. by apply H. }
  destruct v; try discriminate Hrule; injection Hrule as <- <- <-;
    cbn [call fst];
    match goal with
    | |- Message <$> ?f data = Ok (Message ?m) ↔ _ =>
        transitivity (f data = Ok m);
          [ destruct (f data) as [t|e]; cbn;
            split; intros H; try discriminate H;
            injection H as ->; reflexivity
          | ]
    end;
    by apply validate_domain_clear.
Qed.

End domain_family.

Lemma domain_validator_clear_iff_witness :
  let data :=
    mkDataFrame ["city"]
      [ {["city" := Str "Urban"]}; {["city" := Str "Metropolitian"]} ] in
  (call sample_to_datetime 0%Z sample_strptime city_validator data).1
  = Ok (Message [Lit "All cities are valid and consistent."]).
Proof.
  intros data.
  apply (domain_validator_clear_iff sample_to_datetime 0%Z sample_strptime
           city_validator "city" _ _ data eq_refl eq_refl).
  intros r Hr.
  repeat (apply elem_of_cons in Hr as [->|Hr]);
    try (by apply elem_of_nil in Hr).
  - split; [right; left | done].
  - split; [left | done].
Defined.

(** ** [validate_delivery_person_rating], the all-clear *)

Lemma dict_setdefault_append_ne_nil {K V} `{EqDecision K}
    (d : dict K (list V)) (k : K) (x : V) :
  dict_setdefault_append d k x ≠ [].
Proof.
  destruct d as [|[k' l] d]; cbn [dict_setdefault_append]; [done|].
  by destruct (decide (k' = k)).
Qed.

Lemma setdefault_append_cell_ne_nil {V} (numeric : bool)
    (d : dict value (list V)) (k : value) (x : V) :
  setdefault_append_cell numeric d k x ≠ [].
Proof.
  unfold setdefault_append_cell.
  destruct (numeric && pd.isnull k);
    [by destruct d|apply dict_setdefault_append_ne_nil].
Qed.

Lemma foldl_setdefault_cell_nil {V R} (numeric : bool) (key : R → value)
    (issue : R → V) (l : list R) (acc : dict value (list V)) :
  foldl (λ acc r, setdefault_append_cell numeric acc (key r) (issue r)) acc l
  = []
  ↔ acc = [] ∧ l = [].
Proof.
  revert acc. induction l as [|r l IH]; intros acc; cbn [foldl].
  - by split; [|intros [? _]].
  - rewrite IH. split; [|intros [_ H]; discriminate H].
    intros [H _]. by apply setdefault_append_cell_ne_nil in H.
Qed.

Lemma foldl_setdefault_if_nil {K V G} `{EqDecision K} (P : G → Prop)
    `{Hdec : ∀ g, Decision (P g)} (issue : G → V) (l : list (K * G))
    (acc : dict K (list V)) :
  foldl (λ acc '(k, g),
           if bool_decide (P g) then dict_setdefault_append acc k (issue g)
           else acc) acc l = []
  ↔ acc = [] ∧ ∀ k g, (k, g) ∈ l → ¬ P g.
Proof.
  revert acc. induction l as [|[k g] l IH]; intros acc; cbn [foldl].
  - split; [intros ->; split; [done|]|by intros [? _]].
    intros k g Hin. by apply elem_of_nil in Hin.
  - rewrite IH. destruct (decide (P g)) as [Hp|Hp].
    + rewrite (bool_decide_eq_true_2 _ Hp). split.
      * intros [H _]. by apply dict_setdefault_append_ne_nil in H.
      * intros [_ H]. destruct (H k g); [left|done].
    + rewrite (bool_decide_eq_false_2 _ Hp). split.
      * intros [-> H]. split; [done|]. intros k' g' Hin.
        apply elem_of_cons in Hin as [[= -> ->]|Hin]; [done|].
        by apply (H k').
      * intros [-> H]. split; [done|]. intros k' g' Hin.
        apply (H k'). by right.
Qed.

Lemma mask_or_fmap {A} (f g : A → bool) (l : list A) :
  pd.mask_or (f <$> l) (g <$> l) = (λ x, f x || g x) <$> l.
Proof.
  unfold pd.mask_or. induction l as [|x l IH]; [done|].
  rewrite !fmap_cons. cbn [zip_with]. by rewrite IH.
Qed.

(** A rating column that is [datetime64], or holds a string, makes the
    comparison with 1 raise [TypeError].  On a frame whose rating column
    is not [datetime64] and holds numbers and missing cells only, and
    whose keys [groupby] can sort, [validate_delivery_person_rating]
    returns its all-clear exactly when every rating that is present lies
    in [1, 5] and the rows of one [delivery_person_id] carry one and the
    same rating cell, a missing cell differing from every present
    one. *)
Theorem validate_delivery_person_rating_clear_iff (data : DataFrame) :
  pd.has_column data "delivery_person_id" = true →
  pd.has_column data "delivery_person_rating" = true →
  (pd.is_datetime64_any_dtype data "delivery_person_rating" = true
   ∨ (∃ s, Str s ∈ pd.column data "delivery_person_rating") →
   validate_delivery_person_rating data = Raise TypeError)
  ∧ (pd.is_datetime64_any_dtype data "delivery_person_rating" = false →
     (∀ v, v ∈ pd.column data "delivery_person_rating" →
           v = NA ∨ ∃ q, v = Num q) →
     pd.sortable (pd.column data "delivery_person_id") = true →
     (validate_delivery_person_rating data
      = Ok [Lit "All delivery_person_ids have valid and consistent ratings."]
      ↔ (∀ q, Num q ∈ pd.column data "delivery_person_rating" →
              (Qc_of_Z 1 <= q)%Qc ∧ (q <= Qc_of_Z 5)%Qc)
        ∧ (∀ r1 r2, r1 ∈ rows data → r2 ∈ rows data →
             cell r1 "delivery_person_id" ≠ NA →
             cell r1 "delivery_person_id" = cell r2 "delivery_person_id" →
             cell r1 "delivery_person_rating"
             = cell r2 "delivery_person_rating"))).
Proof.
  intros Hid Hrating. unfold validate_delivery_person_rating.
  rewrite Hid, Hrating. cbn [negb orb]. split.
  - intros Hraise.
    assert (Hlt : pd.lt data "delivery_person_rating" (Qc_of_Z 1)
                  = Raise TypeError).
    { unfold pd.lt. destruct Hraise as [-> | [s Hs]]; [done|].
      destruct (pd.is_datetime64_any_dtype data "delivery_person_rating");
        [done|].
      induction (pd.column data "delivery_person_rating") as [|v col IH];
        [by apply elem_of_nil in Hs|].
      cbn [pd.series_map].
      destruct (pd.lt_scalar (Qc_of_Z 1) v) as [b|e] eqn:Hv;
        cbn [mbind result_bind].
      - apply elem_of_cons in Hs as [<-|Hs]; [discriminate Hv|].
        by rewrite (IH Hs).
      - destruct v; cbn in Hv; congruence. }
    by rewrite Hlt.
  - intros Hdtype Hnum Hsort.
    unfold pd.lt, pd.gt. rewrite Hdtype.
    rewrite (series_map_ok (pd.lt_scalar (Qc_of_Z 1)) rating_low).
    2:{ intros v Hv. by destruct (Hnum v Hv) as [->|[q ->]]. }
    rewrite (series_map_ok (pd.gt_scalar (Qc_of_Z 5)) rating_high).
    2:{ intros v Hv. by destruct (Hnum v Hv) as [->|[q ->]]. }
    cbn [mbind result_bind]. rewrite mask_or_fmap.
    rewrite (empty_select _ _ _ _ Hid), select_column, groupby_agg, Hsort.
    cbn [mbind result_bind].
    set (invalid := filter _ (rows data)).
    set (groups := _ <$> pd.group_keys _).
    set (first := if negb (bool_decide (invalid = [])) then _ else _).
    set (discrepancies := foldl _ first groups).
    transitivity (discrepancies = []).
    { destruct discrepancies as [|x d].
      - by rewrite bool_decide_eq_false_2 by (by intros H).
      - rewrite bool_decide_eq_true_2 by done. split; [|done].
        intros [= H]. apply (f_equal length) in H.
        match type of H with
        | length (foldl ?f ?acc ?l) = _ =>
            set (step := f) in H;
            pose proof (foldl_length step l acc) as Hlen
        end.
        assert (Hstep : ∀ (acc : text) (y : value * list text),
                  (length acc ≤ length (step acc y))%nat).
        { intros acc0 [k issues]; subst step; cbn beta iota.
          rewrite length_app. lia. }
        specialize (Hlen Hstep). rewrite H in Hlen.
        destruct x as [k issues]. cbn [length] in Hlen. lia. }
    subst discrepancies.
    pose proof (foldl_setdefault_if_nil (K := value)
                  (λ ratings : list value, 1 < length ratings)
                  (λ ratings, [Lit "Inconsistent ratings: ";
                               Fmt (PyList (PyVal <$> ratings))])
                  groups first) as Hfold.
    cbn beta in Hfold. rewrite Hfold. clear Hfold.
    assert (Hfirst : first = [] ↔ invalid = []).
    { subst first. destruct (decide (invalid = [])) as [Hi|Hi].
      - by rewrite (bool_decide_eq_true_2 _ Hi).
      - rewrite (bool_decide_eq_false_2 _ Hi). cbn [negb].
        rewrite foldl_setdefault_cell_nil. split; [by intros [_ ?]|done]. }
    rewrite Hfirst. clear Hfirst. subst invalid groups.
    rewrite filter_nil_iff.
    match goal with
    | |- ?A ∧ ?B ↔ ?C ∧ ?D => enough ((A ↔ C) ∧ (B ↔ D)) by tauto
    end.
    split.
    + split.
      * intros Hall q Hq. apply list_elem_of_fmap in Hq as (r & Hq & Hr).
        specialize (Hall r Hr). rewrite <- Hq in Hall.
        cbn [rating_low rating_high] in Hall.
        split; apply Qcnot_lt_le; intros Hlt; apply Hall.
        -- by rewrite (bool_decide_eq_true_2 _ Hlt).
        -- rewrite (bool_decide_eq_true_2 _ Hlt). apply orb_true_r.
      * intros Hall r Hr Hbad.
        destruct (cell r "delivery_person_rating") as [| |q|] eqn:Hq;
          try discriminate Hbad.
        destruct (Hall q) as [Hlo Hhi].
        { rewrite <- Hq. apply list_elem_of_fmap. eauto. }
        cbn [rating_low rating_high] in Hbad.
        apply orb_true_iff in Hbad as [H%bool_decide_eq_true
                                      |H%bool_decide_eq_true].
        -- by apply Qcle_not_lt in Hlo.
        -- by apply Qcle_not_lt in Hhi.
    + split.
      * intros Hall r1 r2 Hr1 Hr2 Hna Hk.
        destruct (decide (cell r1 "delivery_person_rating"
                          = cell r2 "delivery_person_rating"))
          as [|Hne]; [done|].
        destruct (Hall (cell r1 "delivery_person_id")
                    (pd.unique (pd.group_of (cell r1 "delivery_person_id")
                                  (rows data) "delivery_person_id"
                                  "delivery_person_rating"))).
        -- apply list_elem_of_fmap.
           exists (cell r1 "delivery_person_id"). split; [done|].
           apply elem_of_group_keys. split; [done|].
           apply list_elem_of_fmap. eauto.
        -- apply length_unique_gt1.
           exists (cell r1 "delivery_person_rating"),
                  (cell r2 "delivery_person_rating").
           split; [apply elem_of_group_of; eauto|].
           split; [apply elem_of_group_of; eauto|done].
      * intros Hall k g Hin Hlen.
        apply list_elem_of_fmap in Hin as (k' & [= -> ->] & Hk).
        apply elem_of_group_keys in Hk as [Hna _].
        apply length_unique_gt1 in Hlen as (a & b & Ha & Hb & Hne).
        apply elem_of_group_of in Ha as (r1 & Hr1 & Hk1 & <-).
        apply elem_of_group_of in Hb as (r2 & Hr2 & Hk2 & <-).
        apply Hne, Hall; [done|done|by rewrite Hk1|by rewrite Hk1, Hk2].
Qed.

Lemma validate_delivery_person_rating_clear_iff_witness :
  let person (i rating : value) : row :=
    <["delivery_person_id" := i]> {["delivery_person_rating" := rating]} in
  let data :=
    mkDataFrame ["delivery_person_id"; "delivery_person_rating"]
      [ person (Str "P1") (int 1); person (Str "P2") NA;
        person (Str "P1") (int 1); person NA (int 5) ] in
  validate_delivery_person_rating data
  = Ok [Lit "All delivery_person_ids have valid and consistent ratings."].
Proof.
  intros person data.
  destruct (validate_delivery_person_rating_clear_iff data eq_refl eq_refl)
    as [_ Hnum].
  apply Hnum; [reflexivity| |reflexivity|].
  - intros v Hv.
    repeat (apply elem_of_cons in Hv as [->|Hv]);
      try (by apply elem_of_nil in Hv); eauto.
  - split.
    + intros q Hq.
      repeat (apply elem_of_cons in Hq as [Hq|Hq]);
        try (by apply elem_of_nil in Hq); try discriminate Hq;
        injection Hq as ->; split; done.
    + intros r1 r2 Hr1 Hr2.
      repeat (apply elem_of_cons in Hr1 as [->|Hr1]);
        try (by apply elem_of_nil in Hr1);
        repeat (apply elem_of_cons in Hr2 as [->|Hr2]);
        try (by apply elem_of_nil in Hr2);
        vm_compute; congruence.
Defined.
